(** * xmlrpc-parser: the XML-RPC message encoder (src/lib/xmlrpc-message.js)

    A shallow embedding of [XMLRPCMessage] and its prototype methods, and the
    properties of the encoder that the specification states.

    The file has four parts: a model of the part of the JavaScript runtime
    that the source relies on (numbers and their printing, [Date] getters,
    [String.prototype.match] for the one regular expression of the source),
    the source functions themselves, the definitions that the statements
    use, and the lemmas and theorems. *)

From Stdlib Require Import ZArith List String Ascii Bool Lia.
Import ListNotations.

Local Open Scope string_scope.
Local Open Scope Z_scope.

(** ** Exceptions

    The only exception the source can raise on the values modelled here is a
    [TypeError] (a property read on [null], a symbol converted to a string).
    A JavaScript completion is a value or a throw. *)

Inductive error : Type :=
| TypeError (msg : string).

Inductive completion (A : Type) : Type :=
| Return (a : A)
| Throw (e : error).

Arguments Return {A} a.
Arguments Throw {A} e.

Definition bind {A B : Type} (c : completion A) (k : A -> completion B)
  : completion B :=
  match c with
  | Return a => k a
  | Throw e => Throw e
  end.

Notation "'let*' x ':=' c 'in' k" := (bind c (fun x => k))
  (at level 10, x name, c at level 100, k at level 200).

Notation "'let*' ' p ':=' c 'in' k" := (bind c (fun x => let 'p := x in k))
  (at level 10, p strict pattern, c at level 100, k at level 200).

Definition returns {A : Type} (c : completion A) : Prop :=
  exists a, c = Return a.

Definition throws {A : Type} (c : completion A) : Prop :=
  exists e, c = Throw e.

(** ** Strings *)

Module Str.

(** [repeat0 n] is a run of [n] characters '0'. *)
Fixpoint repeat0 (n : nat) : string :=
  match n with
  | O => ""
  | S k => String "0" (repeat0 k)
  end.

(** The first [n] characters, and what follows them. *)
Fixpoint take (n : nat) (s : string) : string :=
  match n, s with
  | S k, String c r => String c (take k r)
  | _, _ => ""
  end.

Fixpoint drop (n : nat) (s : string) : string :=
  match n, s with
  | S k, String c r => drop k r
  | _, _ => s
  end.

(** [starts_with p s]: [s] begins with [p]. *)
Fixpoint starts_with (p s : string) : bool :=
  match p, s with
  | "", _ => true
  | String a p', String b s' => Ascii.eqb a b && starts_with p' s'
  | String _ _, "" => false
  end.

(** [contains needle s]: [needle] occurs in [s]. *)
Fixpoint contains (needle s : string) : bool :=
  starts_with needle s ||
  match s with
  | "" => false
  | String _ r => contains needle r
  end.

(** Concatenation of a list of strings, as a loop with [xml += ...] does. *)
Fixpoint cat (l : list string) : string :=
  match l with
  | [] => ""
  | x :: r => x ++ cat r
  end.

End Str.

(** ** Numbers

    A JavaScript Number is NaN, an infinity, or a finite double.  A finite
    double is modelled by the decimal that JavaScript prints for it: the pair
    [(m, e)] stands for [m * 10^e].  The operations below are defined on the
    mathematical value, so every pair that denotes the same value behaves the
    same.  Negative zero is identified with zero: [===], [<] and string
    conversion, the operations the source applies, do not tell them apart.

    The source does arithmetic only on integers below 2^53 and on NaN, where
    double arithmetic is exact. *)

Inductive number : Type :=
| NaN
| Infinity (negative : bool)
| Fin (m e : Z).

Definition of_Z (z : Z) : number := Fin z 0.

Module Num.

(** Both mantissas brought to the smaller of the two exponents. *)
Definition align (m1 e1 m2 e2 : Z) : Z * Z :=
  let e := Z.min e1 e2 in
  (m1 * 10 ^ (e1 - e), m2 * 10 ^ (e2 - e)).

(** [a === b] on Numbers. *)
Definition strict_eq (a b : number) : bool :=
  match a, b with
  | Fin m1 e1, Fin m2 e2 => let '(x, y) := align m1 e1 m2 e2 in x =? y
  | Infinity s1, Infinity s2 => Bool.eqb s1 s2
  | _, _ => false
  end.

(** [a < b] on Numbers (false whenever an operand is NaN). *)
Definition lt (a b : number) : bool :=
  match a, b with
  | NaN, _ | _, NaN => false
  | Infinity true, Infinity true => false
  | Infinity true, _ => true
  | _, Infinity true => false
  | Infinity false, _ => false
  | _, Infinity false => true
  | Fin m1 e1, Fin m2 e2 => let '(x, y) := align m1 e1 m2 e2 in x <? y
  end.

(** [a > b] is [b < a]. *)
Definition gt (a b : number) : bool := lt b a.

Definition is_zero (a : number) : bool :=
  match a with
  | Fin m _ => m =? 0
  | _ => false
  end.

(** [a + b]. *)
Definition add (a b : number) : number :=
  match a, b with
  | NaN, _ | _, NaN => NaN
  | Infinity s1, Infinity s2 => if Bool.eqb s1 s2 then Infinity s1 else NaN
  | Infinity s, _ | _, Infinity s => Infinity s
  | Fin m1 e1, Fin m2 e2 =>
      let '(x, y) := align m1 e1 m2 e2 in Fin (x + y) (Z.min e1 e2)
  end.

(** [a * b]. *)
Definition mul (a b : number) : number :=
  match a, b with
  | NaN, _ | _, NaN => NaN
  | Infinity s1, Infinity s2 => Infinity (xorb s1 s2)
  | Infinity s, Fin m _ | Fin m _, Infinity s =>
      if m =? 0 then NaN else Infinity (xorb s (m <? 0))
  | Fin m1 e1, Fin m2 e2 => Fin (m1 * m2) (e1 + e2)
  end.

(** [Math.round]: the nearest integer, a tie going towards +Infinity. *)
Definition Math_round (a : number) : number :=
  match a with
  | Fin m e =>
      if 0 <=? e then Fin m e
      else let d := 10 ^ (- e) in Fin ((2 * m + d) / (2 * d)) 0
  | _ => a
  end.

(** Truncation towards zero of a finite number ([ToIntegerOrInfinity]). *)
Definition trunc (m e : Z) : Z :=
  if 0 <=? e then m * 10 ^ e else Z.quot m (10 ^ (- e)).

(** *** Number to string (ECMA-262, Number::toString with radix 10) *)

Definition digit_char (d : Z) : ascii :=
  ascii_of_nat (48 + Z.to_nat d).

Fixpoint digits_aux (fuel : nat) (n : Z) (acc : string) : string :=
  match fuel with
  | O => acc
  | S f =>
      let acc' := String (digit_char (n mod 10)) acc in
      if n <? 10 then acc' else digits_aux f (n / 10) acc'
  end.

(** The decimal digits of a non-negative integer, without leading zero. *)
Definition digits (n : Z) : string :=
  digits_aux (S (Z.to_nat (Z.log2 n))) n "".

(** Integer to string, as for a BigInt or an integer Number below 10^21. *)
Definition Z_toString (z : Z) : string :=
  if z <? 0 then "-" ++ digits (- z) else digits z.

Fixpoint strip_aux (fuel : nat) (m e : Z) : Z * Z :=
  match fuel with
  | O => (m, e)
  | S f => if m mod 10 =? 0 then strip_aux f (m / 10) (e + 1) else (m, e)
  end.

(** The same value with a mantissa that does not end in 0 (0 is [(0, 0)]). *)
Definition normalize (m e : Z) : Z * Z :=
  if m =? 0 then (0, 0) else strip_aux (S (Z.to_nat (Z.log2 (Z.abs m)))) m e.

(** [s] is the digit string (k digits), the value is [s * 10^(n-k)]. *)
Definition positive_toString (s : Z) (e : Z) : string :=
  let ds := digits s in
  let k := Z.of_nat (String.length ds) in
  let n := k + e in
  if (k <=? n) && (n <=? 21) then
    ds ++ Str.repeat0 (Z.to_nat (n - k))
  else if (0 <? n) && (n <=? 21) then
    Str.take (Z.to_nat n) ds ++ "." ++ Str.drop (Z.to_nat n) ds
  else if (-6 <? n) && (n <=? 0) then
    "0." ++ Str.repeat0 (Z.to_nat (- n)) ++ ds
  else
    let ex := (if n - 1 <? 0 then "-" else "+") ++ digits (Z.abs (n - 1)) in
    if k =? 1 then ds ++ "e" ++ ex
    else Str.take 1 ds ++ "." ++ Str.drop 1 ds ++ "e" ++ ex.

Definition toString (a : number) : string :=
  match a with
  | NaN => "NaN"
  | Infinity false => "Infinity"
  | Infinity true => "-Infinity"
  | Fin m e =>
      let '(m', e') := normalize m e in
      if m' =? 0 then "0"
      else if m' <? 0 then "-" ++ positive_toString (- m') e'
      else positive_toString m' e'
  end.

(** *** String to number

    [Number(s)] on a string (ECMA-262, StringToNumber), for the decimal
    literals: an optional sign, then "Infinity" or digits with an optional
    fraction and an optional exponent; the empty string is 0 and a string
    that is no numeric literal, such as "NaN.NaN", is NaN.  Not interpreted:
    white space around the literal and the prefixes 0x, 0o and 0b.  The
    result is the decimal read, which is the double JavaScript gets for a
    literal of at most 15 significant digits; the source converts strings of
    two to five digits. *)

Definition is_digit (c : ascii) : bool :=
  let n := nat_of_ascii c in (48 <=? n)%nat && (n <=? 57)%nat.

Definition digit_val (c : ascii) : Z := Z.of_nat (nat_of_ascii c) - 48.

(** Reads digits: the value read so far, how many, and the rest. *)
Fixpoint read_digits (s : string) (acc : Z) (count : Z) : Z * Z * string :=
  match s with
  | String c r =>
      if is_digit c then read_digits r (10 * acc + digit_val c) (count + 1)
      else (acc, count, s)
  | "" => (acc, count, s)
  end.

(** An optional sign: whether it is "-", and the rest. *)
Definition read_sign (s : string) : bool * string :=
  match s with
  | String "-" r => (true, r)
  | String "+" r => (false, r)
  | _ => (false, s)
  end.

(** The exponent part, or nothing: the exponent, if the text is well formed. *)
Definition read_exponent (s : string) : option Z :=
  match s with
  | "" => Some 0
  | String c r =>
      if Ascii.eqb c "e" || Ascii.eqb c "E" then
        let '(neg, r') := read_sign r in
        let '(ev, ne, rest) := read_digits r' 0 0 in
        match rest with
        | "" => if ne =? 0 then None else Some (if neg then - ev else ev)
        | _ => None
        end
      else None
  end.

(** Digits, fraction and exponent: the mantissa and the power of ten. *)
Definition unsigned_decimal (s : string) : option (Z * Z) :=
  let '(ip, ni, r1) := read_digits s 0 0 in
  let '(v, nf, r2) :=
    match r1 with
    | String "." r => read_digits r ip 0
    | _ => (ip, 0, r1)
    end in
  if ni + nf =? 0 then None
  else
    match read_exponent r2 with
    | Some ev => Some (v, ev - nf)
    | None => None
    end.

Definition of_string (s : string) : number :=
  match s with
  | "" => Fin 0 0
  | _ =>
      let '(neg, body) := read_sign s in
      if String.eqb body "Infinity" then Infinity neg
      else
        match unsigned_decimal body with
        | Some (m, e) => Fin (if neg then - m else m) e
        | None => NaN
        end
  end.

End Num.

(** ** Dates

    A [Date] object holds a time value: a whole number of milliseconds since
    1970-01-01T00:00:00Z, or NaN for an invalid date ([None] here).  The
    getters follow ECMA-262 (Day, DayFromYear, YearFromTime, MonthFromTime,
    DateFromTime, HourFromTime, MinFromTime, SecFromTime, msFromTime); [/] and
    [mod] on [Z] are the floor division and the modulo of that text. *)

Inductive Date : Type :=
| MkDate (tv : option Z).

Module Time.

Definition msPerDay : Z := 86400000.
Definition msPerHour : Z := 3600000.
Definition msPerMinute : Z := 60000.
Definition msPerSecond : Z := 1000.

Definition Day (t : Z) : Z := t / msPerDay.

Definition DayFromYear (y : Z) : Z :=
  365 * (y - 1970) + (y - 1969) / 4 - (y - 1901) / 100 + (y - 1601) / 400.

Definition DaysInYear (y : Z) : Z :=
  if negb (y mod 4 =? 0) then 365
  else if negb (y mod 100 =? 0) then 366
  else if negb (y mod 400 =? 0) then 365
  else 366.

(** The largest year that starts on or before day [d]: an estimate from the
    mean length of a year, corrected by one year either way. *)
Definition YearFromDay (d : Z) : Z :=
  let y := 1970 + (400 * d) / 146097 in
  if d <? DayFromYear y then y - 1
  else if DayFromYear (y + 1) <=? d then y + 1
  else y.

Definition YearFromTime (t : Z) : Z := YearFromDay (Day t).

Definition InLeapYear (t : Z) : Z :=
  if DaysInYear (YearFromTime t) =? 366 then 1 else 0.

Definition DayWithinYear (t : Z) : Z :=
  Day t - DayFromYear (YearFromTime t).

Definition MonthFromTime (t : Z) : Z :=
  let d := DayWithinYear t in
  let l := InLeapYear t in
  if d <? 31 then 0
  else if d <? 59 + l then 1
  else if d <? 90 + l then 2
  else if d <? 120 + l then 3
  else if d <? 151 + l then 4
  else if d <? 181 + l then 5
  else if d <? 212 + l then 6
  else if d <? 243 + l then 7
  else if d <? 273 + l then 8
  else if d <? 304 + l then 9
  else if d <? 334 + l then 10
  else 11.

Definition DateFromTime (t : Z) : Z :=
  let d := DayWithinYear t in
  let l := InLeapYear t in
  match MonthFromTime t with
  | 0 => d + 1
  | 1 => d - 30
  | 2 => d - 58 - l
  | 3 => d - 89 - l
  | 4 => d - 119 - l
  | 5 => d - 150 - l
  | 6 => d - 180 - l
  | 7 => d - 211 - l
  | 8 => d - 242 - l
  | 9 => d - 272 - l
  | 10 => d - 303 - l
  | _ => d - 333 - l
  end.

Definition HourFromTime (t : Z) : Z := (t / msPerHour) mod 24.
Definition MinFromTime (t : Z) : Z := (t / msPerMinute) mod 60.
Definition SecFromTime (t : Z) : Z := (t / msPerSecond) mod 60.
Definition msFromTime (t : Z) : Z := t mod msPerSecond.

(** [TimeClip]: a time value out of the range of [Date] becomes NaN. *)
Definition TimeClip (v : number) : option Z :=
  match v with
  | Fin m e =>
      if Num.lt (of_Z 8640000000000000) (Fin (Z.abs m) e) then None
      else Some (Num.trunc m e)
  | _ => None
  end.

End Time.

(** [new Date(v)] for a Number [v]. *)
Definition Date_new (v : number) : Date := MkDate (Time.TimeClip v).

(** [Number(date)], the time value. *)
Definition Date_valueOf (d : Date) : number :=
  match d with
  | MkDate (Some t) => of_Z t
  | MkDate None => NaN
  end.

Definition Date_field (f : Z -> Z) (d : Date) : number :=
  match d with
  | MkDate (Some t) => of_Z (f t)
  | MkDate None => NaN
  end.

Definition getUTCFullYear : Date -> number := Date_field Time.YearFromTime.
Definition getUTCMonth : Date -> number := Date_field Time.MonthFromTime.
Definition getUTCDate : Date -> number := Date_field Time.DateFromTime.
Definition getUTCHours : Date -> number := Date_field Time.HourFromTime.
Definition getUTCMinutes : Date -> number := Date_field Time.MinFromTime.
Definition getUTCSeconds : Date -> number := Date_field Time.SecFromTime.
Definition getUTCMilliseconds : Date -> number := Date_field Time.msFromTime.

(** ** [String.prototype.match] for the offset pattern

    The source matches one regular expression, [/([-+])([0-9]{2}):([0-9]{2})/].
    It is not anchored: [match] returns the leftmost occurrence, with the
    three groups, or [null] ([None]) when there is none. *)

Record groups : Type := MkGroups {
  g1 : string;   (* d[1], the sign *)
  g2 : string;   (* d[2], two digits *)
  g3 : string    (* d[3], two digits *)
}.

Definition is_sign (c : ascii) : bool :=
  Ascii.eqb c "-" || Ascii.eqb c "+".

Definition match_here (s : string) : option groups :=
  match s with
  | String c0 (String h1 (String h2 (String c3 (String m1 (String m2 _))))) =>
      if is_sign c0 && Num.is_digit h1 && Num.is_digit h2
         && Ascii.eqb c3 ":" && Num.is_digit m1 && Num.is_digit m2
      then Some (MkGroups (String c0 "") (String h1 (String h2 ""))
                          (String m1 (String m2 "")))
      else None
  | _ => None
  end.

Fixpoint match_offset (s : string) : option groups :=
  match match_here s with
  | Some d => Some d
  | None =>
      match s with
      | "" => None
      | String _ r => match_offset r
      end
  end.

(** ** Values

    The values a caller can pass as parameters: the seven kinds of primitive
    value, [Date] objects, arrays, and every other object (the source treats
    them all alike).  An object is given by its enumerable string-keyed
    properties in the order [for (const i in data)] visits them, each with the
    value [data[i]] reads; an array by its elements from index 0 to
    [length - 1], a hole being [undefined].  Values are finite trees: cyclic
    object graphs, on which the source recurses without end, are not
    represented, and neither are callable objects or objects whose property
    reads run user code (getters, proxies). *)

Inductive primitive : Type :=
| PUndefined
| PNull
| PBoolean (b : bool)
| PNumber (n : number)
| PBigInt (z : Z)
| PString (s : string)
| PSymbol (description : string).

#[warnings="-register-all"]
Inductive value : Type :=
| VPrim (p : primitive)
| VDate (d : Date)
| VArray (items : list value)
| VObject (members : list (string * value)).

Abbreviation VUndefined := (VPrim PUndefined).
Abbreviation VNull := (VPrim PNull).
Abbreviation VBoolean b := (VPrim (PBoolean b)).
Abbreviation VNumber n := (VPrim (PNumber n)).
Abbreviation VBigInt z := (VPrim (PBigInt z)).
Abbreviation VString s := (VPrim (PString s)).
Abbreviation VSymbol d := (VPrim (PSymbol d)).

(** The [typeof] operator. *)
Definition typeof (o : value) : string :=
  match o with
  | VUndefined => "undefined"
  | VNull => "object"
  | VBoolean _ => "boolean"
  | VNumber _ => "number"
  | VBigInt _ => "bigint"
  | VString _ => "string"
  | VSymbol _ => "symbol"
  | VDate _ | VArray _ | VObject _ => "object"
  end.

(** What [o.constructor] is compared with in the source. *)
Inductive constructor : Type :=
| CDate
| CArray
| COther.

(** Reading [o.constructor]: a TypeError on [null] and [undefined]. *)
Definition get_constructor (o : value) : completion constructor :=
  match o with
  | VNull => Throw (TypeError "Cannot read properties of null")
  | VUndefined => Throw (TypeError "Cannot read properties of undefined")
  | VDate _ => Return CDate
  | VArray _ => Return CArray
  | _ => Return COther
  end.

(** The string that [s + data] appends for a primitive [data] (ToString):
    a TypeError for a symbol. *)
Definition ToString (data : primitive) : completion string :=
  match data with
  | PUndefined => Return "undefined"
  | PNull => Return "null"
  | PBoolean b => Return (if b then "true" else "false")
  | PNumber n => Return (Num.toString n)
  | PBigInt z => Return (Num.Z_toString z)
  | PString s => Return s
  | PSymbol _ => Throw (TypeError "Cannot convert a Symbol value to a string")
  end.

(** Falsy arguments: [!format] and [!offset], [methodname || ...]. *)
Definition falsy_number (format : option number) : bool :=
  match format with
  | None => true
  | Some NaN => true
  | Some n => Num.is_zero n
  end.

Definition falsy_string (s : option string) : bool :=
  match s with
  | None => true
  | Some "" => true
  | Some _ => false
  end.

Definition nl : string := String (ascii_of_nat 10) "".
Definition dquote : string := String (ascii_of_nat 34) "".

(** ** The source: [XMLRPCMessage] *)

(** The object [new XMLRPCMessage(...)] builds.  [method] and [params] are
    the properties the constructor sets; [is_fault] is a property that the
    constructor never sets and that [xml] reads (its truthiness is kept).
    The properties are public, so a caller can change them between the
    construction and the call of [xml]; [method = None] stands for a property
    that was set to [undefined]. *)
Record message : Type := MkMessage {
  method : option string;
  params : list value;
  is_fault : bool
}.

(** [function XMLRPCMessage(methodname, params)]: [a || b] is [b] when [a] is
    falsy ([undefined], the empty string). *)
Definition XMLRPCMessage (methodname : option string)
    (params : option (list value)) : message :=
  {| method := Some (match methodname with
                     | Some name =>
                         if falsy_string methodname then "system.listMethods"
                         else name
                     | None => "system.listMethods"
                     end);
     params := match params with
               | Some l => l
               | None => []
               end;
     is_fault := false |}.

(** [dataTypeOf]: [typeof o] is kept, except that a number becomes ['i4'] or
    ['double'] and an object ['date'], ['array'] or ['struct'] after its
    [constructor] property has been read. *)
Definition dataTypeOf (o : value) : completion string :=
  let type := typeof o in
  match o with
  | VNumber n =>
      Return (if Num.strict_eq (Num.Math_round n) n then "i4" else "double")
  | VNull | VDate _ | VArray _ | VObject _ =>
      let* c := get_constructor o in
      Return (match c with
              | CDate => "date"
              | CArray => "array"
              | COther => "struct"
              end)
  | _ => Return type
  end.

(** [toValueXML]. *)
Definition toValueXML (type : string) (data : primitive) : completion string :=
  let* text := ToString data in
  Return ("<" ++ type ++ ">" ++ text ++ "</" ++ type ++ ">").

(** [toBooleanXML]: [data === true ? 1 : 0]. *)
Definition toBooleanXML (data : value) : string :=
  let value :=
    match data with
    | VBoolean true => of_Z 1
    | _ => of_Z 0
    end in
  "<boolean>" ++ Num.toString value ++ "</boolean>".

(** The local function [zeropad] of [dateToISO8601]. *)
Definition zeropad (num : number) : string :=
  (if Num.lt num (of_Z 10) then "0" else "") ++ Num.toString num.

(** The first part of [dateToISO8601]: the defaults, and the date shifted by
    the offset.  Gives the format, the zone designator and the date whose
    fields are printed. *)
Definition dateToISO8601_args (dateIn : Date) (format : option number)
    (offset : option string) : completion (number * string * Date) :=
  let format :=
    match format with
    | Some f => if falsy_number format then of_Z 6 else f
    | None => of_Z 6
    end in
  match offset with
  | Some o =>
      if falsy_string offset then Return (format, "Z", dateIn)
      else
        match match_offset o with
        | None => Throw (TypeError "Cannot read properties of null")
        | Some d =>
            let offsetnum :=
              Num.add (Num.mul (Num.of_string (g2 d)) (of_Z 60))
                      (Num.of_string (g3 d)) in
            let offsetnum :=
              Num.mul offsetnum
                      (if String.eqb (g1 d) "-" then of_Z (-1) else of_Z 1) in
            let date :=
              Date_new (Num.add (Date_valueOf dateIn)
                                (Num.mul offsetnum (of_Z 60000))) in
            Return (format, o, date)
        end
  | None => Return (format, "Z", dateIn)
  end.

(** The second part of [dateToISO8601]: the fields of [date], as many as
    [format] asks for, and the zone designator. *)
Definition dateToISO8601_fields (format : number) (offset : string)
    (date : Date) : string :=
  let str := "" in
  let str := str ++ Num.toString (getUTCFullYear date) in
  let str :=
    if Num.gt format (of_Z 1)
    then str ++ "-" ++ zeropad (Num.add (getUTCMonth date) (of_Z 1))
    else str in
  let str :=
    if Num.gt format (of_Z 2)
    then str ++ "-" ++ zeropad (getUTCDate date)
    else str in
  let str :=
    if Num.gt format (of_Z 3)
    then str ++ "T" ++ zeropad (getUTCHours date)
             ++ ":" ++ zeropad (getUTCMinutes date)
    else str in
  let str :=
    if Num.gt format (of_Z 5) then
      let secs :=
        Num.of_string
          (Num.toString (getUTCSeconds date) ++ "."
           ++ (if Num.lt (getUTCMilliseconds date) (of_Z 100) then "0" else "")
           ++ zeropad (getUTCMilliseconds date)) in
      str ++ ":" ++ zeropad secs
    else if Num.gt format (of_Z 4) then
      str ++ ":" ++ zeropad (getUTCSeconds date)
    else str in
  let str :=
    if Num.gt format (of_Z 3) then str ++ offset else str in
  str.

(** [dateToISO8601(dateIn, format, offset)]; an argument left out is [None]. *)
Definition dateToISO8601 (dateIn : Date) (format : option number)
    (offset : option string) : completion string :=
  let* '(format, offset, date) := dateToISO8601_args dateIn format offset in
  Return (dateToISO8601_fields format offset date).

(** [toDateXML]. *)
Definition toDateXML (data : Date) : completion string :=
  let xml := "<dateTime.iso8601>" in
  let* iso := dateToISO8601 data None None in
  let xml := xml ++ iso in
  let xml := xml ++ "</dateTime.iso8601>" in
  Return xml.

Section Containers.

(** The recursive call [this.getParamXML]. *)
Variable getParamXML : value -> completion string.

(** The loop of [toArrayXML], from index [i] on; [xml] is the text so far
    and [data] the elements not yet visited. *)
Fixpoint toArrayXML_loop (data : list value) (xml : string)
  : completion string :=
  match data with
  | [] => Return xml
  | item :: rest =>
      let* x := getParamXML item in
      toArrayXML_loop rest (xml ++ "<value>" ++ x ++ "</value>" ++ nl)
  end.

Definition toArrayXML (data : list value) : completion string :=
  let xml := "<array><data>" ++ nl in
  let* xml := toArrayXML_loop data xml in
  Return (xml ++ "</data></array>" ++ nl).

(** The [for ... in] loop of [toStructXML]. *)
Fixpoint toStructXML_loop (data : list (string * value)) (xml : string)
  : completion string :=
  match data with
  | [] => Return xml
  | (i, data_i) :: rest =>
      let xml := xml ++ "<member>" ++ nl in
      let xml := xml ++ "<name>" ++ i ++ "</name>" ++ nl in
      let* x := getParamXML data_i in
      let xml := xml ++ "<value>" ++ x ++ "</value>" ++ nl in
      let xml := xml ++ "</member>" ++ nl in
      toStructXML_loop rest xml
  end.

Definition toStructXML (data : list (string * value)) : completion string :=
  let xml := "<struct>" ++ nl in
  let* xml := toStructXML_loop data xml in
  Return (xml ++ "</struct>" ++ nl).

End Containers.

(** [getParamXML]: the switch on [dataTypeOf(data)].  The recursion is on the
    structure of the value, so each case is reached by the constructor that
    gives its type name; [getParamXML_dispatch] below states the switch. *)
Fixpoint getParamXML (data : value) : completion string :=
  match data with
  | VDate d => toDateXML d
  | VArray items => toArrayXML getParamXML items
  | VObject members => toStructXML getParamXML members
  | VBoolean _ => Return (toBooleanXML data)
  | VPrim p =>
      let* type := dataTypeOf data in
      toValueXML type p
  end.

(** The loop of [xml] over [this.params]. *)
Fixpoint xml_loop (is_fault : bool) (params : list value) (xml : string)
  : completion string :=
  match params with
  | [] => Return xml
  | p :: rest =>
      let xml := if negb is_fault then xml ++ "<param>" ++ nl else xml in
      let* x := getParamXML p in
      let xml := xml ++ "<value>" ++ x ++ "</value>" ++ nl in
      let xml := if negb is_fault then xml ++ "</param>" ++ nl else xml in
      xml_loop is_fault rest xml
  end.

Definition truthy_method (m : option string) : bool :=
  negb (falsy_string m).

(** [XMLRPCMessage.prototype.xml]. *)
Definition xml (this : message) : completion string :=
  let name := match method this with Some m => m | None => "" end in
  let xml := "<?xml version=" ++ dquote ++ "1.0" ++ dquote ++ "?>" ++ nl in
  let xml :=
    if truthy_method (method this)
    then (xml ++ "<methodCall>" ++ nl)
         ++ "<methodName>" ++ name ++ "</methodName>" ++ nl
    else xml ++ "<methodResponse>" ++ nl in
  let xml :=
    if negb (is_fault this) then xml ++ "<params>" ++ nl
    else xml ++ "<fault>" ++ nl in
  let* xml := xml_loop (is_fault this) (params this) xml in
  let xml :=
    if negb (is_fault this) then xml ++ "</params>" ++ nl
    else xml ++ "</fault>" ++ nl in
  let xml :=
    if truthy_method (method this) then xml ++ "</methodCall>"
    else xml ++ "</methodResponse>" in
  Return xml.

(** * The vocabulary of the statements

    What the theorems below are stated with: the text that one iteration of
    a loop appends, the parts of a document, and the notions that the
    specification uses for numbers, offsets, seconds and values. *)

(** [mapM f l]: the results of [f] on the elements of [l], in order, or the
    first exception. *)
Fixpoint mapM {A B : Type} (f : A -> completion B) (l : list A)
  : completion (list B) :=
  match l with
  | [] => Return []
  | a :: r =>
      let* b := f a in
      let* bs := mapM f r in
      Return (b :: bs)
  end.

(** ** Induction on values, through arrays and objects *)

Section ValueInduction.

Variable P : value -> Prop.
Hypothesis P_prim : forall p, P (VPrim p).
Hypothesis P_date : forall d, P (VDate d).
Hypothesis P_array : forall items, Forall P items -> P (VArray items).
Hypothesis P_object :
  forall members, Forall (fun kv => P (snd kv)) members -> P (VObject members).


End ValueInduction.

(** What one iteration appends. *)
Definition array_entry (x : string) : string :=
  "<value>" ++ x ++ "</value>" ++ nl.

Definition struct_member (name x : string) : string :=
  "<member>" ++ nl ++ "<name>" ++ name ++ "</name>" ++ nl
  ++ "<value>" ++ x ++ "</value>" ++ nl ++ "</member>" ++ nl.

Definition param_entry (is_fault : bool) (x : string) : string :=
  if is_fault then "<value>" ++ x ++ "</value>" ++ nl
  else "<param>" ++ nl ++ "<value>" ++ x ++ "</value>" ++ nl
       ++ "</param>" ++ nl.

(** A member of an object with its rendered value. *)
Definition member_of (f : value -> completion string) (kv : string * value)
  : completion string :=
  let* x := f (snd kv) in Return (struct_member (fst kv) x).

(** The declaration line and the opening of the root element, and its
    closing: what [xml] emits before and after the envelope. *)
Definition document_open (m : option string) : string :=
  "<?xml version=" ++ dquote ++ "1.0" ++ dquote ++ "?>" ++ nl
  ++ (if truthy_method m
      then "<methodCall>" ++ nl ++ "<methodName>"
           ++ match m with Some name => name | None => "" end
           ++ "</methodName>" ++ nl
      else "<methodResponse>" ++ nl).

Definition document_close (m : option string) : string :=
  if truthy_method m then "</methodCall>" else "</methodResponse>".

(** The envelope: [<params>] with one [<param>] per value, or [<fault>]. *)
Definition envelope (fault : bool) (xs : list string) : string :=
  (if fault then "<fault>" else "<params>") ++ nl
  ++ Str.cat (map (param_entry fault) xs)
  ++ (if fault then "</fault>" else "</params>") ++ nl.

(** [n] is a whole number: it is [===] to an integer. *)
Definition whole (n : number) : Prop :=
  exists z : Z, Num.strict_eq n (of_Z z) = true.

(** The format in force: 6 when the argument is left out or falsy. *)
Definition precision (format : option number) : number :=
  match format with
  | Some f => if falsy_number format then of_Z 6 else f
  | None => of_Z 6
  end.

(** The pattern of the source occurs in [o]: a sign, two digits, a colon and
    two digits, anywhere in the string. *)
Definition offset_pattern_occurs (o : string) : Prop :=
  exists (pre post : string) (sign h1 h2 m1 m2 : ascii),
    o = pre ++ String sign (String h1 (String h2
                 (String ":" (String m1 (String m2 post)))))
    /\ is_sign sign = true
    /\ Num.is_digit h1 = true /\ Num.is_digit h2 = true
    /\ Num.is_digit m1 = true /\ Num.is_digit m2 = true.

(** An offset string made of a sign, two digits, a colon and two digits. *)
Definition offset_string (sign h1 h2 m1 m2 : ascii) : string :=
  String sign (String h1 (String h2 (String ":" (String m1 (String m2 ""))))).

(** The signed number of minutes it stands for: hours * 60 + minutes. *)
Definition offset_minutes (sign h1 h2 m1 m2 : ascii) : Z :=
  (if Ascii.eqb sign "-" then -1 else 1)
  * ((10 * Num.digit_val h1 + Num.digit_val h2) * 60
     + (10 * Num.digit_val m1 + Num.digit_val m2)).

(** The instant moved by a number of minutes; a date stays or becomes invalid
    when it is or gets out of the range of [Date]. *)
Definition shift_minutes (d : Date) (minutes : Z) : Date :=
  match d with
  | MkDate (Some t) =>
      let t' := t + minutes * 60000 in
      if 8640000000000000 <? Z.abs t' then MkDate None else MkDate (Some t')
  | MkDate None => MkDate None
  end.

(** A number below 100 on two digits. *)
Definition two_digits (z : Z) : string :=
  String (Num.digit_char (z / 10)) (String (Num.digit_char (z mod 10)) "").

(** The digits of the milliseconds as a decimal fraction of a second: three
    digits without the zeros at the end. *)
Definition fraction_digits (ms : Z) : string :=
  let a := Num.digit_char (ms / 100) in
  let b := Num.digit_char ((ms / 10) mod 10) in
  let c := Num.digit_char (ms mod 10) in
  if ms =? 0 then ""
  else if ms mod 100 =? 0 then String a ""
  else if ms mod 10 =? 0 then String a (String b "")
  else String a (String b (String c "")).

(** The fraction with its point; nothing when the milliseconds are 0. *)
Definition fraction (ms : Z) : string :=
  if ms =? 0 then "" else "." ++ fraction_digits ms.

(** The milliseconds on three digits. *)
Definition three_digits (ms : Z) : string :=
  String (Num.digit_char (ms / 100))
    (String (Num.digit_char ((ms / 10) mod 10))
       (String (Num.digit_char (ms mod 10)) "")).

(** The last character of a string is not '0'. *)
Fixpoint no_zero_at_end (s : string) : bool :=
  match s with
  | "" => true
  | String c "" => negb (Ascii.eqb c "0")
  | String _ r => no_zero_at_end r
  end.

(** What the source prints for the seconds at format 6. *)
Definition seconds_text (s ms : Z) : string :=
  zeropad
    (Num.of_string
       (Num.toString (of_Z s) ++ "."
        ++ (if Num.lt (of_Z ms) (of_Z 100) then "0" else "")
        ++ zeropad (of_Z ms))).

(** The integers from 0 to [n - 1]. *)
Definition range (n : nat) : list Z := map Z.of_nat (seq 0 n).

(** The date, hours and minutes that the formatter prints from format 4 on. *)
Definition date_hours_minutes (date : Date) : string :=
  Num.toString (getUTCFullYear date)
  ++ "-" ++ zeropad (Num.add (getUTCMonth date) (of_Z 1))
  ++ "-" ++ zeropad (getUTCDate date)
  ++ "T" ++ zeropad (getUTCHours date)
  ++ ":" ++ zeropad (getUTCMinutes date).

(** The text ends with a point, two digits and "Z". *)
Fixpoint ends_with_two_fraction_digits (s : string) : bool :=
  match s with
  | "" => false
  | String c r =>
      (Ascii.eqb c "."
       && match r with
          | String a (String b (String z "")) =>
              Num.is_digit a && Num.is_digit b && Ascii.eqb z "Z"
          | _ => false
          end)
      || ends_with_two_fraction_digits r
  end.

(** A response document: the declaration line, [<methodResponse>] around the
    rest, and neither [<methodCall>] nor [<methodName>] anywhere. *)
Definition is_response_document (doc : string) : bool :=
  Str.starts_with ("<?xml version=" ++ dquote ++ "1.0" ++ dquote ++ "?>"
                   ++ nl ++ "<methodResponse>" ++ nl) doc
  && negb (Str.contains "<methodCall>" doc)
  && negb (Str.contains "<methodName>" doc).



(** [c] does not occur in [s]. *)
Fixpoint absent (c : ascii) (s : string) : bool :=
  match s with
  | "" => true
  | String a r => negb (Ascii.eqb a c) && absent c r
  end.

(** The two tags of a call. *)
Definition call_tag (tag : string) : Prop :=
  tag = "<methodCall>" \/ tag = "<methodName>".

(** The documents that [xml] builds: a response and a call around an
    envelope. *)
Definition response_document (fault : bool) (xs : list string) : string :=
  "<?xml version=" ++ dquote ++ "1.0" ++ dquote ++ "?>" ++ nl
  ++ "<methodResponse>" ++ nl
  ++ envelope fault xs
  ++ "</methodResponse>".

Definition call_document (name : string) (xs : list string) : string :=
  "<?xml version=" ++ dquote ++ "1.0" ++ dquote ++ "?>" ++ nl
  ++ "<methodCall>" ++ nl
  ++ "<methodName>" ++ name ++ "</methodName>" ++ nl
  ++ envelope false xs
  ++ "</methodCall>".

(** ** More vocabulary: tags, offsets inside a longer text, date texts *)

(** The text a rendering opens with, for a type name of [dataTypeOf]: a date
    opens with the XML-RPC tag and not with its type name, an array with its
    two tags. *)
Definition open_tag (type : string) : string :=
  if String.eqb type "date" then "<dateTime.iso8601>"
  else if String.eqb type "array" then "<array><data>"
  else "<" ++ type ++ ">".

(** No character of [s] is a sign. *)
Fixpoint no_sign (s : string) : bool :=
  match s with
  | "" => true
  | String c r => negb (is_sign c) && no_sign r
  end.

(** The date of a valid time value, each field but the year on two digits. *)
Definition year_text (t : Z) : string :=
  Num.toString (of_Z (Time.YearFromTime t)).

Definition month_text (t : Z) : string :=
  two_digits (Time.MonthFromTime t + 1).

Definition day_text (t : Z) : string :=
  two_digits (Time.DateFromTime t).

Definition hours_text (t : Z) : string :=
  two_digits (Time.HourFromTime t).

Definition minutes_text (t : Z) : string :=
  two_digits (Time.MinFromTime t).

Definition seconds_whole_text (t : Z) : string :=
  two_digits (Time.SecFromTime t).

(** What the formatter prints for an invalid date at format 6, less the zone
    designator. *)
Definition invalid_date_text : string := "NaN-NaN-NaNTNaN:NaN:NaN".

(** * Properties *)

(** ** Strings *)

Module StrFacts.

Lemma app_assoc (a b c : string) : (a ++ b) ++ c = a ++ (b ++ c).
Proof.
  induction a as [|ch a IH]; simpl; [reflexivity | now rewrite IH].
Qed.

Lemma app_empty_r (a : string) : a ++ "" = a.
Proof.
  induction a as [|ch a IH]; simpl; [reflexivity | now rewrite IH].
Qed.

End StrFacts.

(** ** The runtime model on samples *)

Example toString_samples :
  map Num.toString
      [Fin 30450 (-3); Fin 5 (-1); Fin 0 7; Fin (-25) (-1); Fin 1 21;
       Fin 123 (-9); Fin 1 (-3); Fin 12 19; Fin 1997 0; Fin (-1) 0]
  = ["30.45"; "0.5"; "0"; "-2.5"; "1e+21";
     "1.23e-7"; "0.001"; "120000000000000000000"; "1997"; "-1"].
Proof. vm_compute. reflexivity. Qed.

Example of_string_samples :
  map Num.of_string
      ["30.450"; "07"; "NaN.NaN"; "5."; ""; ".5"; "-1.5e3"; "+Infinity";
       "1e"; "."; "12px"; "-"]
  = [Fin 30450 (-3); Fin 7 0; NaN; Fin 5 0; Fin 0 0; Fin 5 (-1);
     Fin (-15) 2; Infinity false; NaN; NaN; NaN; NaN].
Proof. vm_compute. reflexivity. Qed.

Example Math_round_samples :
  map Num.Math_round [Fin 25 (-1); Fin (-25) (-1); Fin (-2) (-1); Fin 7 2; NaN]
  = [Fin 3 0; Fin (-2) 0; Fin 0 0; Fin 7 2; NaN].
Proof. vm_compute. reflexivity. Qed.

Example toString_whole_checked :
  forallb (fun z =>
     String.eqb (Num.toString (of_Z z)) (Num.Z_toString z)
     && String.eqb (Num.toString (of_Z (- z))) (Num.Z_toString (- z))
     && String.eqb (Num.toString (Fin (z * 1000) (-3))) (Num.Z_toString z))
    (range 2500) = true.
Proof. vm_compute. reflexivity. Qed.

Example date_fields_1997 :
  let d := MkDate (Some 869080830450) in
  [getUTCFullYear d; getUTCMonth d; getUTCDate d; getUTCHours d;
   getUTCMinutes d; getUTCSeconds d; getUTCMilliseconds d]
  = map of_Z [1997; 6; 16; 19; 20; 30; 450].
Proof. vm_compute. reflexivity. Qed.

Example date_fields_leap :
  map (fun t => (Time.YearFromTime t, Time.MonthFromTime t, Time.DateFromTime t))
      [0; -1; 951782400000; 951868800000; 1078012800000; -62198755200000;
       8640000000000000; -8640000000000000; 4107542399999]
  = [(1970, 0, 1); (1969, 11, 31); (2000, 1, 29); (2000, 2, 1); (2004, 1, 29);
     (-1, 0, 1); (275760, 8, 13); (-271821, 3, 20); (2100, 1, 28)].
Proof. vm_compute. reflexivity. Qed.

(** The year found is the one ECMA-262 defines: the largest year whose first
    day is not after the given day. *)
Lemma YearFromDay_spec (d : Z) :
  Time.DayFromYear (Time.YearFromDay d) <= d
  < Time.DayFromYear (Time.YearFromDay d + 1).
Proof.
  unfold Time.YearFromDay.
  set (y := 1970 + 400 * d / 146097).
  destruct (Z.ltb_spec d (Time.DayFromYear y)) as [H1|H1].
  - replace (y - 1 + 1) with y by lia. split; [|exact H1].
    unfold Time.DayFromYear in *. subst y.
    Z.to_euclidean_division_equations. lia.
  - destruct (Z.leb_spec (Time.DayFromYear (y + 1)) d) as [H2|H2].
    + split; [exact H2|].
      unfold Time.DayFromYear in *. subst y.
      Z.to_euclidean_division_equations. lia.
    + split; [exact H1 | exact H2].
Qed.

(** ** Completions *)

Lemma bind_Return {A B : Type} (a : A) (k : A -> completion B) :
  bind (Return a) k = k a.
Proof. reflexivity. Qed.

Lemma bind_assoc {A B C : Type} (c : completion A)
    (k : A -> completion B) (h : B -> completion C) :
  bind (bind c k) h = bind c (fun a => bind (k a) h).
Proof. destruct c; reflexivity. Qed.

Lemma bind_ext {A B : Type} (c : completion A) (k h : A -> completion B) :
  (forall a, k a = h a) -> bind c k = bind c h.
Proof. intros E. destruct c; simpl; auto. Qed.

Lemma returns_Return {A : Type} (a : A) : returns (Return a).
Proof. now exists a. Qed.

Lemma returns_not_throws {A : Type} (c : completion A) :
  returns c -> ~ throws c.
Proof. intros [a ->] [e H]. discriminate H. Qed.

Lemma returns_or_throws {A : Type} (c : completion A) :
  returns c \/ throws c.
Proof. destruct c as [a|e]; [left; now exists a | right; now exists e]. Qed.

#[local] Hint Resolve returns_Return : core.


Lemma mapM_length {A B : Type} (f : A -> completion B) (l : list A) bs :
  mapM f l = Return bs -> List.length bs = List.length l.
Proof.
  revert bs. induction l as [|a r IH]; simpl; intros bs H.
  - now injection H as <-.
  - destruct (f a) as [b|e]; [|discriminate]. simpl in H.
    destruct (mapM f r) as [bs'|e]; [|discriminate]. simpl in H.
    injection H as <-. simpl. f_equal. now apply IH.
Qed.

(** ** The loops, without their accumulator *)

(** Strings equal up to the bracketing of [++]. *)
Ltac norm_app :=
  repeat first [rewrite StrFacts.app_assoc | progress simpl]; try reflexivity.

Lemma toArrayXML_loop_cat (f : value -> completion string) items acc :
  toArrayXML_loop f items acc =
  let* xs := mapM f items in
  Return (acc ++ Str.cat (map array_entry xs)).
Proof.
  revert acc. induction items as [|v r IH]; intros acc; simpl.
  - now rewrite StrFacts.app_empty_r.
  - destruct (f v) as [x|e]; simpl; [|reflexivity].
    rewrite IH. destruct (mapM f r) as [xs|e]; simpl; [|reflexivity].
    unfold array_entry. now norm_app.
Qed.

Lemma toStructXML_loop_cat (f : value -> completion string) members acc :
  toStructXML_loop f members acc =
  let* ms := mapM (member_of f) members in
  Return (acc ++ Str.cat ms).
Proof.
  revert acc. induction members as [|[k v] r IH]; intros acc; simpl.
  - now rewrite StrFacts.app_empty_r.
  - unfold member_of at 1. simpl.
    destruct (f v) as [x|e]; simpl; [|reflexivity].
    rewrite IH. destruct (mapM (member_of f) r) as [ms|e]; simpl; [|reflexivity].
    unfold struct_member. now norm_app.
Qed.

Lemma xml_loop_cat (fault : bool) ps acc :
  xml_loop fault ps acc =
  let* xs := mapM getParamXML ps in
  Return (acc ++ Str.cat (map (param_entry fault) xs)).
Proof.
  revert acc. induction ps as [|v r IH]; intros acc; simpl.
  - now rewrite StrFacts.app_empty_r.
  - destruct (getParamXML v) as [x|e]; simpl.
    + rewrite IH. destruct (mapM getParamXML r) as [xs|e]; simpl; [|reflexivity].
      unfold param_entry. destruct fault; simpl; now norm_app.
    + destruct fault; reflexivity.
Qed.

(** ** The document around the parameters *)

Lemma xml_shape (this : message) :
  xml this =
  let* xs := mapM getParamXML (params this) in
  Return (document_open (method this)
          ++ envelope (is_fault this) xs
          ++ document_close (method this)).
Proof.
  unfold xml. rewrite xml_loop_cat.
  destruct (mapM getParamXML (params this)) as [xs|e]; simpl; [|reflexivity].
  unfold document_open, document_close, envelope.
  destruct (truthy_method (method this)), (is_fault this); norm_app.
Qed.

Lemma getParamXML_array (items : list value) :
  getParamXML (VArray items) =
  let* xs := mapM getParamXML items in
  Return ("<array><data>" ++ nl ++ Str.cat (map array_entry xs)
          ++ "</data></array>" ++ nl).
Proof.
  simpl. unfold toArrayXML. rewrite toArrayXML_loop_cat.
  destruct (mapM getParamXML items) as [xs|e]; simpl; [|reflexivity].
  norm_app.
Qed.

Lemma getParamXML_object (members : list (string * value)) :
  getParamXML (VObject members) =
  let* ms := mapM (member_of getParamXML) members in
  Return ("<struct>" ++ nl ++ Str.cat ms ++ "</struct>" ++ nl).
Proof.
  simpl. unfold toStructXML. rewrite toStructXML_loop_cat.
  destruct (mapM (member_of getParamXML) members) as [xs|e]; simpl;
    [|reflexivity].
  norm_app.
Qed.

(** ** Containers, text and booleans *)

(** C7: an array renders as [<array><data>], then one [<value>...</value>]
    per element in the order of the array, each holding the rendering that
    [getParamXML] gives for that element, then [</data></array>]; the only
    way for it not to is an exception raised by an element.  The empty array
    renders the [<data>] block with nothing inside. *)
Theorem C7_array_rendering (items : list value) :
  getParamXML (VArray items) =
    (let* xs := mapM getParamXML items in
     Return ("<array><data>" ++ nl
             ++ Str.cat (map (fun x => "<value>" ++ x ++ "</value>" ++ nl) xs)
             ++ "</data></array>" ++ nl))
  /\ getParamXML (VArray []) =
     Return ("<array><data>" ++ nl ++ "</data></array>" ++ nl).
Proof.
  split; [|reflexivity].
  exact (getParamXML_array items).
Qed.

Example array_1_2_3 :
  getParamXML (VArray [VNumber (of_Z 1); VNumber (of_Z 2); VNumber (of_Z 3)])
  = Return ("<array><data>" ++ nl
            ++ "<value><i4>1</i4></value>" ++ nl
            ++ "<value><i4>2</i4></value>" ++ nl
            ++ "<value><i4>3</i4></value>" ++ nl
            ++ "</data></array>" ++ nl).
Proof. vm_compute. reflexivity. Qed.

(** C8: a string value is emitted as it is between [<string>] and
    [</string>], and a key of a struct as it is between [<name>] and
    [</name>]: no character is escaped, [<] and [&] included. *)
Theorem C8_text_verbatim :
  (forall s : string,
      getParamXML (VString s) = Return ("<string>" ++ s ++ "</string>"))
  /\ (forall members : list (string * value),
      getParamXML (VObject members) =
      let* ms :=
        mapM (fun kv =>
                let* x := getParamXML (snd kv) in
                Return ("<member>" ++ nl
                        ++ "<name>" ++ fst kv ++ "</name>" ++ nl
                        ++ "<value>" ++ x ++ "</value>" ++ nl
                        ++ "</member>" ++ nl)) members in
      Return ("<struct>" ++ nl ++ Str.cat ms ++ "</struct>" ++ nl))
  /\ getParamXML (VObject [("a<b&c", VString "1 < 2 && 3")]) =
     Return ("<struct>" ++ nl ++ "<member>" ++ nl
             ++ "<name>a<b&c</name>" ++ nl
             ++ "<value><string>1 < 2 && 3</string></value>" ++ nl
             ++ "</member>" ++ nl ++ "</struct>" ++ nl).
Proof.
  split; [|split].
  - intros s. reflexivity.
  - intros members. exact (getParamXML_object members).
  - vm_compute. reflexivity.
Qed.

(** C9: a boolean is classified ['boolean'] and renders as
    [<boolean>1</boolean>] when it is [true], [<boolean>0</boolean>] when it
    is [false]: one tag for both. *)
Theorem C9_boolean_rendering (b : bool) :
  dataTypeOf (VBoolean b) = Return "boolean"
  /\ getParamXML (VBoolean b) =
     Return ("<boolean>" ++ (if b then "1" else "0") ++ "</boolean>").
Proof.
  destruct b; split; reflexivity.
Qed.

(** C6: with [is_fault] set and one value, the document holds that value's
    [<value>...</value>] directly inside [<fault>...</fault>], with no
    [<param>] and no [<params>] around it; with [is_fault] not set, each
    value's [<value>...</value>] is inside a [<param>] of its own, all of
    them inside [<params>...</params>]. *)
Theorem C6_fault_and_params_envelope (this : message) :
  (forall v : value,
      is_fault this = true ->
      params this = [v] ->
      xml this =
      let* x := getParamXML v in
      Return (document_open (method this)
              ++ "<fault>" ++ nl
              ++ "<value>" ++ x ++ "</value>" ++ nl
              ++ "</fault>" ++ nl
              ++ document_close (method this)))
  /\ (is_fault this = false ->
      xml this =
      let* xs := mapM getParamXML (params this) in
      Return (document_open (method this)
              ++ "<params>" ++ nl
              ++ Str.cat (map (fun x => "<param>" ++ nl
                                        ++ "<value>" ++ x ++ "</value>" ++ nl
                                        ++ "</param>" ++ nl) xs)
              ++ "</params>" ++ nl
              ++ document_close (method this))).
Proof.
  split.
  - intros v Hf Hp. rewrite xml_shape, Hf, Hp. simpl.
    destruct (getParamXML v) as [x|e]; simpl; [|reflexivity].
    unfold envelope, param_entry. f_equal. f_equal. norm_app.
  - intros Hf. rewrite xml_shape, Hf.
    destruct (mapM getParamXML (params this)) as [xs|e]; simpl; [|reflexivity].
    unfold envelope, param_entry. f_equal. f_equal. norm_app.
Qed.

Lemma C6_fault_and_params_envelope_witness :
  xml (MkMessage None
         [VObject [("faultCode", VNumber (of_Z 4));
                   ("faultString", VString "Too many parameters.")]] true)
  = Return ("<?xml version=" ++ dquote ++ "1.0" ++ dquote ++ "?>" ++ nl
            ++ "<methodResponse>" ++ nl
            ++ "<fault>" ++ nl
            ++ "<value><struct>" ++ nl
            ++ "<member>" ++ nl ++ "<name>faultCode</name>" ++ nl
            ++ "<value><i4>4</i4></value>" ++ nl ++ "</member>" ++ nl
            ++ "<member>" ++ nl ++ "<name>faultString</name>" ++ nl
            ++ "<value><string>Too many parameters.</string></value>" ++ nl
            ++ "</member>" ++ nl ++ "</struct>" ++ nl ++ "</value>" ++ nl
            ++ "</fault>" ++ nl
            ++ "</methodResponse>")
  /\ xml (XMLRPCMessage (Some "test.echo")
            (Some [VString "one"; VString "two"; VString "three"]))
     = Return ("<?xml version=" ++ dquote ++ "1.0" ++ dquote ++ "?>" ++ nl
               ++ "<methodCall>" ++ nl
               ++ "<methodName>test.echo</methodName>" ++ nl
               ++ "<params>" ++ nl
               ++ "<param>" ++ nl ++ "<value><string>one</string></value>"
               ++ nl ++ "</param>" ++ nl
               ++ "<param>" ++ nl ++ "<value><string>two</string></value>"
               ++ nl ++ "</param>" ++ nl
               ++ "<param>" ++ nl ++ "<value><string>three</string></value>"
               ++ nl ++ "</param>" ++ nl
               ++ "</params>" ++ nl
               ++ "</methodCall>").
Proof.
  split.
  - exact (proj1 (C6_fault_and_params_envelope
                    (MkMessage None
                       [VObject [("faultCode", VNumber (of_Z 4));
                                 ("faultString",
                                  VString "Too many parameters.")]] true))
                 _ eq_refl eq_refl).
  - exact (proj2 (C6_fault_and_params_envelope
                    (XMLRPCMessage (Some "test.echo")
                       (Some [VString "one"; VString "two"; VString "three"])))
                 eq_refl).
Defined.

(** ** Numbers: [i4] or [double] *)

Lemma pow10_pos (k : Z) : 0 <= k -> 0 < 10 ^ k.
Proof. intros H. apply Z.pow_pos_nonneg; lia. Qed.

(** [Math_round] gives the nearest integer [r] of [m * 10^e], the upper one
    when two are as near: [r - 1/2 <= m / d < r + 1/2] with [d = 10^(-e)]. *)
Lemma Math_round_nearest (m e : Z) :
  e < 0 ->
  exists r : Z,
    Num.Math_round (Fin m e) = Fin r 0
    /\ 2 * r * 10 ^ (- e) - 10 ^ (- e) <= 2 * m
       < 2 * r * 10 ^ (- e) + 10 ^ (- e).
Proof.
  intros He. unfold Num.Math_round.
  destruct (Z.leb_spec 0 e) as [H|_]; [lia|].
  pose proof (pow10_pos (- e) ltac:(lia)) as Hd.
  set (d := 10 ^ (- e)) in *.
  exists ((2 * m + d) / (2 * d)). split; [reflexivity|].
  pose proof (Z.div_mod (2 * m + d) (2 * d) ltac:(lia)) as E.
  pose proof (Z.mod_pos_bound (2 * m + d) (2 * d) ltac:(lia)) as B.
  nia.
Qed.

Lemma strict_eq_refl_fin (m e : Z) : Num.strict_eq (Fin m e) (Fin m e) = true.
Proof.
  unfold Num.strict_eq, Num.align. apply Z.eqb_refl.
Qed.

(** A finite number is [===] to its rounding exactly when it is whole. *)
Lemma Math_round_fixed_iff_whole (m e : Z) :
  Num.strict_eq (Num.Math_round (Fin m e)) (Fin m e) = true
  <-> whole (Fin m e).
Proof.
  unfold whole, of_Z, Num.Math_round.
  destruct (Z.leb_spec 0 e) as [He|He].
  - split; [intros _ | intros _; apply strict_eq_refl_fin].
    exists (m * 10 ^ e). unfold Num.strict_eq, Num.align.
    rewrite Z.min_r by lia. rewrite Z.sub_0_r, Z.sub_diag. simpl (10 ^ 0).
    apply Z.eqb_eq. lia.
  - pose proof (pow10_pos (- e) ltac:(lia)) as Hd.
    unfold Num.strict_eq, Num.align.
    rewrite ?(Z.min_r 0 e), ?(Z.min_l e 0) by lia.
    replace (e - e) with 0 by lia. replace (0 - e) with (- e) by lia.
    simpl (10 ^ 0).
    set (d := 10 ^ (- e)) in *.
    split.
    + intros H. apply Z.eqb_eq in H.
      exists ((2 * m + d) / (2 * d)). apply Z.eqb_eq. lia.
    + intros [z H]. apply Z.eqb_eq in H. apply Z.eqb_eq.
      assert (E : (2 * m + d) / (2 * d) = z).
      { symmetry. apply Z.div_unique with (r := d); [lia | nia]. }
      rewrite E. lia.
Qed.

Lemma of_Z_whole (z : Z) : whole (of_Z z).
Proof. exists z. apply strict_eq_refl_fin. Qed.

(** C3: a number is classified ['i4'] and rendered inside [<i4>] exactly
    when it is [===] to its rounding to the nearest integer, and otherwise
    classified ['double'] and rendered inside [<double>].  The numbers equal
    to their rounding are the whole numbers and the two infinities; NaN is
    not. *)
Theorem C3_number_classification (n : number) :
  ((Num.strict_eq (Num.Math_round n) n = true
    /\ dataTypeOf (VNumber n) = Return "i4"
    /\ getParamXML (VNumber n) =
       Return ("<i4>" ++ Num.toString n ++ "</i4>"))
   \/
   (Num.strict_eq (Num.Math_round n) n = false
    /\ dataTypeOf (VNumber n) = Return "double"
    /\ getParamXML (VNumber n) =
       Return ("<double>" ++ Num.toString n ++ "</double>")))
  /\ (Num.strict_eq (Num.Math_round n) n = true
      <-> whole n \/ exists s, n = Infinity s).
Proof.
  split.
  - simpl. unfold toValueXML. simpl.
    destruct (Num.strict_eq (Num.Math_round n) n); [left | right];
      repeat split; reflexivity.
  - destruct n as [| s | m e].
    + simpl. split; [discriminate|].
      intros [[z H] | [s H]]; discriminate.
    + simpl. rewrite Bool.eqb_reflx. split; [eauto | reflexivity].
    + rewrite Math_round_fixed_iff_whole. split; [auto|].
      intros [H | [s H]]; [exact H | discriminate].
Qed.

Example classification_samples :
  map (fun n => getParamXML (VNumber n))
      [of_Z 42; Fin 45 (-1); Fin 70 (-1); Fin 3 2; NaN; Infinity false;
       of_Z 2147483648]
  = map Return
      ["<i4>42</i4>"; "<double>4.5</double>"; "<i4>7</i4>"; "<i4>300</i4>";
       "<double>NaN</double>"; "<i4>Infinity</i4>"; "<i4>2147483648</i4>"].
Proof. vm_compute. reflexivity. Qed.

(** ** The date formatter *)

Lemma match_here_Some (s : string) (d : groups) :
  match_here s = Some d ->
  exists (post : string) (sign h1 h2 m1 m2 : ascii),
    s = String sign (String h1 (String h2
          (String ":" (String m1 (String m2 post)))))
    /\ d = MkGroups (String sign "") (String h1 (String h2 ""))
                    (String m1 (String m2 ""))
    /\ is_sign sign = true
    /\ Num.is_digit h1 = true /\ Num.is_digit h2 = true
    /\ Num.is_digit m1 = true /\ Num.is_digit m2 = true.
Proof.
  destruct s as [|c0 [|h1 [|h2 [|c3 [|m1 [|m2 r]]]]]]; try discriminate.
  unfold match_here.
  destruct (is_sign c0) eqn:E0; [|discriminate].
  destruct (Num.is_digit h1) eqn:E1; [|discriminate].
  destruct (Num.is_digit h2) eqn:E2; [|discriminate].
  destruct (Ascii.eqb c3 ":") eqn:E3; [|discriminate].
  destruct (Num.is_digit m1) eqn:E4; [|discriminate].
  destruct (Num.is_digit m2) eqn:E5; [|discriminate].
  simpl. intros H. injection H as <-.
  apply Ascii.eqb_eq in E3. subst c3.
  exists r, c0, h1, h2, m1, m2. repeat split; assumption.
Qed.

Lemma match_here_pattern (post : string) (sign h1 h2 m1 m2 : ascii) :
  is_sign sign = true ->
  Num.is_digit h1 = true -> Num.is_digit h2 = true ->
  Num.is_digit m1 = true -> Num.is_digit m2 = true ->
  match_here (String sign (String h1 (String h2
                (String ":" (String m1 (String m2 post))))))
  = Some (MkGroups (String sign "") (String h1 (String h2 ""))
                   (String m1 (String m2 ""))).
Proof.
  intros E0 E1 E2 E4 E5. unfold match_here.
  rewrite E0, E1, E2, E4, E5. reflexivity.
Qed.

Lemma match_offset_Some_iff (o : string) :
  (exists d, match_offset o = Some d) <-> offset_pattern_occurs o.
Proof.
  split.
  - induction o as [|c r IH]; intros [d H].
    + discriminate H.
    + cbn [match_offset] in H.
      destruct (match_here (String c r)) as [d'|] eqn:E.
      * apply match_here_Some in E.
        destruct E as (post & sign & h1 & h2 & m1 & m2 & E & _ & Hs).
        exists "", post, sign, h1, h2, m1, m2. split; [exact E | exact Hs].
      * destruct IH as (pre & post & sign & h1 & h2 & m1 & m2 & E' & Hs);
          [now exists d|].
        exists (String c pre), post, sign, h1, h2, m1, m2.
        split; [simpl; now rewrite E' | exact Hs].
  - intros (pre & post & sign & h1 & h2 & m1 & m2 & E & E0 & E1 & E2 & E4 & E5).
    subst o. induction pre as [|c pre IH].
    + cbn [append match_offset].
      rewrite match_here_pattern by assumption. eauto.
    + cbn [append match_offset].
      destruct (match_here _) as [d|]; [now exists d | exact IH].
Qed.

Lemma match_offset_None_iff (o : string) :
  match_offset o = None <-> ~ offset_pattern_occurs o.
Proof.
  rewrite <- match_offset_Some_iff.
  destruct (match_offset o) as [d|].
  - split; [discriminate | intros H; exfalso; apply H; now exists d].
  - split; [intros _ [d' H]; discriminate H | reflexivity].
Qed.

Lemma falsy_string_Some (o : string) :
  falsy_string (Some o) = true <-> o = "".
Proof.
  destruct o; simpl; split; congruence.
Qed.

(** The formatter with [offset] left out or falsy. *)
Lemma dateToISO8601_default (dateIn : Date) (format : option number)
    (offset : option string) :
  falsy_string offset = true ->
  dateToISO8601 dateIn format offset =
  Return (dateToISO8601_fields (precision format) "Z" dateIn).
Proof.
  intros H. unfold dateToISO8601, dateToISO8601_args.
  fold (precision format).
  destruct offset as [o|]; [rewrite H|]; reflexivity.
Qed.

(** The formatter on an offset with no match: [d] is [null], [d[2]] raises. *)
Lemma dateToISO8601_no_match (dateIn : Date) (format : option number)
    (o : string) :
  o <> "" ->
  match_offset o = None ->
  dateToISO8601 dateIn format (Some o) =
  Throw (TypeError "Cannot read properties of null").
Proof.
  intros Ho Hm. unfold dateToISO8601, dateToISO8601_args.
  destruct (falsy_string (Some o)) eqn:E.
  - apply falsy_string_Some in E. contradiction.
  - rewrite Hm. reflexivity.
Qed.

(** The formatter on an offset with a match returns. *)
Lemma dateToISO8601_match (dateIn : Date) (format : option number)
    (o : string) (d : groups) :
  match_offset o = Some d ->
  returns (dateToISO8601 dateIn format (Some o)).
Proof.
  intros Hm. unfold dateToISO8601, dateToISO8601_args.
  destruct (falsy_string (Some o)); [|rewrite Hm]; simpl; auto.
Qed.

(** C10: with an offset that is a non-empty string in which the pattern
    sign, two digits, colon, two digits does not occur ("Z" is one), [match]
    gives [null] and the formatter raises a TypeError instead of returning;
    it returns exactly when the offset is left out or empty, or the pattern
    occurs in it. *)
Theorem C10_offset_without_match_raises (dateIn : Date)
    (format : option number) (o : string) :
  o <> "" ->
  ~ offset_pattern_occurs o ->
  match_offset o = None
  /\ dateToISO8601 dateIn format (Some o) =
     Throw (TypeError "Cannot read properties of null")
  /\ dateToISO8601 dateIn format (Some "Z") =
     Throw (TypeError "Cannot read properties of null")
  /\ (forall offset : option string,
         returns (dateToISO8601 dateIn format offset) <->
         falsy_string offset = true
         \/ exists o', offset = Some o' /\ offset_pattern_occurs o').
Proof.
  intros Ho Hn. apply match_offset_None_iff in Hn.
  split; [exact Hn|]. split; [now apply dateToISO8601_no_match|].
  split; [apply dateToISO8601_no_match; [discriminate | reflexivity]|].
  intros offset. split.
  - intros Hr. destruct (falsy_string offset) eqn:E; [now left | right].
    destruct offset as [o'|]; [|discriminate E].
    exists o'. split; [reflexivity|].
    apply match_offset_Some_iff.
    destruct (match_offset o') as [d|] eqn:Em; [now exists d|].
    exfalso. apply (returns_not_throws _ Hr).
    rewrite dateToISO8601_no_match; [eexists; reflexivity | | exact Em].
    intros ->. discriminate E.
  - intros [E | (o' & -> & Hp)].
    + rewrite dateToISO8601_default by exact E. auto.
    + apply match_offset_Some_iff in Hp. destruct Hp as [d Hd].
      now apply dateToISO8601_match with d.
Qed.

Lemma C10_offset_without_match_raises_witness :
  "+1:00" <> ""
  /\ ~ offset_pattern_occurs "+1:00"
  /\ dateToISO8601 (MkDate (Some 869080830450)) (Some (of_Z 5)) (Some "+1:00")
     = Throw (TypeError "Cannot read properties of null").
Proof.
  assert (H1 : "+1:00" <> "") by discriminate.
  assert (H2 : ~ offset_pattern_occurs "+1:00")
    by (apply match_offset_None_iff; reflexivity).
  split; [exact H1|]. split; [exact H2|].
  exact (proj1 (proj2 (C10_offset_without_match_raises
                         (MkDate (Some 869080830450)) (Some (of_Z 5))
                         "+1:00" H1 H2))).
Defined.

(** *** The offset *)

Lemma of_string_two_digits (a b : ascii) :
  Num.is_digit a = true -> Num.is_digit b = true ->
  Num.of_string (String a (String b ""))
  = of_Z (10 * Num.digit_val a + Num.digit_val b).
Proof.
  intros Ha Hb.
  assert (Hs : Num.read_sign (String a (String b "")) =
               (false, String a (String b ""))).
  { unfold Num.read_sign.
    destruct a as [[] [] [] [] [] [] [] []]; try reflexivity;
      discriminate Ha. }
  assert (Hi : String.eqb (String a (String b "")) "Infinity" = false)
    by (cbn [String.eqb]; destruct (Ascii.eqb a "I");
        [destruct (Ascii.eqb b "n")|]; reflexivity).
  unfold Num.of_string. rewrite Hs, Hi.
  unfold Num.unsigned_decimal. cbn [Num.read_digits].
  rewrite Ha, Hb. cbn [Num.read_digits].
  replace (0 + 1 + 1 + 0 =? 0) with false by reflexivity.
  cbn [Num.read_exponent]. unfold of_Z. f_equal; lia.
Qed.

(** Arithmetic on whole numbers, and [new Date] of one. *)
Lemma mul_of_Z (a b : Z) : Num.mul (of_Z a) (of_Z b) = of_Z (a * b).
Proof. reflexivity. Qed.

Lemma add_of_Z (a b : Z) : Num.add (of_Z a) (of_Z b) = of_Z (a + b).
Proof.
  unfold of_Z, Num.add, Num.align.
  change (Z.min 0 0) with 0. change (10 ^ (0 - 0)) with 1.
  f_equal. lia.
Qed.

Lemma Date_new_of_Z (t : Z) :
  Date_new (of_Z t) =
  if 8640000000000000 <? Z.abs t then MkDate None else MkDate (Some t).
Proof.
  unfold Date_new, Time.TimeClip, Num.trunc, Num.lt, Num.align, of_Z.
  change (0 <=? 0) with true. change (Z.min 0 0) with 0.
  change (10 ^ (0 - 0)) with 1. change (10 ^ 0) with 1. cbv iota.
  rewrite !Z.mul_1_r.
  now destruct (8640000000000000 <? Z.abs t).
Qed.

(** The arguments that [dateToISO8601] works out from such an offset. *)
Lemma dateToISO8601_args_offset (dateIn : Date) (format : option number)
    (sign h1 h2 m1 m2 : ascii) :
  is_sign sign = true ->
  Num.is_digit h1 = true -> Num.is_digit h2 = true ->
  Num.is_digit m1 = true -> Num.is_digit m2 = true ->
  dateToISO8601_args dateIn format (Some (offset_string sign h1 h2 m1 m2))
  = Return (precision format, offset_string sign h1 h2 m1 m2,
            shift_minutes dateIn (offset_minutes sign h1 h2 m1 m2)).
Proof.
  intros E0 E1 E2 E4 E5. unfold dateToISO8601_args. fold (precision format).
  replace (falsy_string (Some (offset_string sign h1 h2 m1 m2)))
    with false by reflexivity.
  unfold offset_string at 1.
  cbn [match_offset]. rewrite match_here_pattern by assumption.
  cbn [g1 g2 g3].
  rewrite !of_string_two_digits by assumption.
  replace (String.eqb (String sign "") "-") with (Ascii.eqb sign "-")
    by (simpl; now destruct (Ascii.eqb sign "-")).
  do 2 f_equal.
  unfold offset_minutes.
  set (h := 10 * Num.digit_val h1 + Num.digit_val h2).
  set (m := 10 * Num.digit_val m1 + Num.digit_val m2).
  replace (if Ascii.eqb sign "-" then of_Z (-1) else of_Z 1)
    with (of_Z (if Ascii.eqb sign "-" then -1 else 1))
    by now destruct (Ascii.eqb sign "-").
  rewrite mul_of_Z, add_of_Z, !mul_of_Z.
  destruct dateIn as [[t|]]; [|reflexivity].
  unfold Date_valueOf, shift_minutes.
  rewrite add_of_Z, Date_new_of_Z.
  replace ((h * 60 + m) * (if Ascii.eqb sign "-" then -1 else 1) * 60000)
    with ((if Ascii.eqb sign "-" then -1 else 1) * (h * 60 + m) * 60000)
    by lia.
  reflexivity.
Qed.

(** The zone designator is what the formatter appends last, from format 4
    on; the fields before it do not depend on it. *)
Lemma dateToISO8601_fields_designator (f : number) (offset : string)
    (date : Date) :
  dateToISO8601_fields f offset date =
  dateToISO8601_fields f "" date
  ++ (if Num.gt f (of_Z 3) then offset else "").
Proof.
  unfold dateToISO8601_fields. cbv zeta.
  destruct (Num.gt f (of_Z 3)); now rewrite !StrFacts.app_empty_r.
Qed.

(** C5: with an offset made of a sign, two digits of hours, a colon and two
    digits of minutes, the formatter prints the fields of the instant moved
    by the signed number of minutes hours * 60 + minutes, and from format 4
    on it ends the text with the offset string as it was given, where the
    default path ends it with "Z". *)
Theorem C5_offset_shifts_and_is_appended (dateIn : Date)
    (format : option number) (sign h1 h2 m1 m2 : ascii) :
  is_sign sign = true ->
  Num.is_digit h1 = true -> Num.is_digit h2 = true ->
  Num.is_digit m1 = true -> Num.is_digit m2 = true ->
  let offset := offset_string sign h1 h2 m1 m2 in
  let date := shift_minutes dateIn (offset_minutes sign h1 h2 m1 m2) in
  exists fields : string,
    dateToISO8601 date format None =
      Return (if Num.gt (precision format) (of_Z 3)
              then fields ++ "Z" else fields)
    /\ dateToISO8601 dateIn format (Some offset) =
      Return (if Num.gt (precision format) (of_Z 3)
              then fields ++ offset else fields).
Proof.
  intros E0 E1 E2 E4 E5 offset date.
  exists (dateToISO8601_fields (precision format) "" date).
  split.
  - rewrite dateToISO8601_default by reflexivity.
    rewrite dateToISO8601_fields_designator.
    destruct (Num.gt (precision format) (of_Z 3));
      now rewrite ?StrFacts.app_empty_r.
  - unfold dateToISO8601. subst offset date.
    rewrite dateToISO8601_args_offset by assumption.
    cbn [bind]. rewrite dateToISO8601_fields_designator.
    destruct (Num.gt (precision format) (of_Z 3));
      now rewrite ?StrFacts.app_empty_r.
Qed.

Lemma C5_offset_shifts_and_is_appended_witness :
  exists fields : string,
    dateToISO8601 (MkDate (Some (869080830450 + 60 * 60000)))
                  (Some (of_Z 5)) None
    = Return (fields ++ "Z")
    /\ dateToISO8601 (MkDate (Some 869080830450)) (Some (of_Z 5))
                     (Some "+01:00")
       = Return (fields ++ "+01:00").
Proof.
  exact (C5_offset_shifts_and_is_appended
           (MkDate (Some 869080830450)) (Some (of_Z 5)) "+" "0" "1" "0" "0"
           eq_refl eq_refl eq_refl eq_refl eq_refl).
Defined.

Example offset_samples :
  map (fun a => dateToISO8601 (MkDate (Some 869080830450))
                              (Some (of_Z (fst a))) (Some (snd a)))
      [(5, "+01:00"); (4, "-07:30"); (3, "+01:00"); (6, "+00:00")]
  = map Return
      ["1997-07-16T20:20:30+01:00"; "1997-07-16T11:50-07:30"; "1997-07-16";
       "1997-07-16T19:20:30.45+00:00"].
Proof. vm_compute. reflexivity. Qed.

(** *** The seconds at format 6 *)

Lemma in_range (n : nat) (z : Z) : 0 <= z < Z.of_nat n -> In z (range n).
Proof.
  intros H. unfold range. apply in_map_iff.
  exists (Z.to_nat z). split; [lia|]. apply in_seq. lia.
Qed.

Lemma seconds_text_checked :
  forallb (fun s =>
     forallb (fun ms =>
        String.eqb (seconds_text s ms) (two_digits s ++ fraction ms))
       (range 1000))
    (range 60) = true.
Proof. vm_compute. reflexivity. Qed.

Lemma seconds_text_spec (s ms : Z) :
  0 <= s < 60 -> 0 <= ms < 1000 ->
  seconds_text s ms = two_digits s ++ fraction ms.
Proof.
  intros Hs Hms.
  pose proof seconds_text_checked as H.
  rewrite forallb_forall in H. specialize (H s (in_range 60 s Hs)).
  rewrite forallb_forall in H. specialize (H ms (in_range 1000 ms Hms)).
  now apply String.eqb_eq.
Qed.

(** [fraction_digits] is the three digits less the zeros at their end. *)
Lemma fraction_digits_checked :
  forallb (fun ms =>
     String.eqb (fraction_digits ms
                 ++ Str.repeat0 (3 - String.length (fraction_digits ms)))
                (three_digits ms)
     && no_zero_at_end (fraction_digits ms))
    (range 1000) = true.
Proof. vm_compute. reflexivity. Qed.

Lemma fraction_digits_spec (ms : Z) :
  0 <= ms < 1000 ->
  fraction_digits ms ++ Str.repeat0 (3 - String.length (fraction_digits ms))
  = three_digits ms
  /\ no_zero_at_end (fraction_digits ms) = true.
Proof.
  intros H. pose proof fraction_digits_checked as C.
  rewrite forallb_forall in C. specialize (C ms (in_range 1000 ms H)).
  apply andb_true_iff in C. destruct C as [C1 C2].
  split; [now apply String.eqb_eq | exact C2].
Qed.

Lemma fraction_digits_length (ms : Z) :
  0 <= ms < 1000 ->
  (String.length (fraction_digits ms) = 2%nat
   <-> ms mod 10 = 0 /\ ms mod 100 <> 0)
  /\ (String.length (fraction_digits ms) <= 3)%nat
  /\ (ms <> 0 -> (1 <= String.length (fraction_digits ms))%nat).
Proof.
  intros H. unfold fraction_digits. cbv zeta.
  destruct (Z.eqb_spec ms 0) as [E0|E0].
  - subst ms. simpl.
    split; [split; [discriminate | intros [_ C]; now elim C]|].
    split; [lia | intros C; now elim C].
  - destruct (Z.eqb_spec (ms mod 100) 0) as [E1|E1].
    + simpl. split; [split; [discriminate | intros [_ C]; contradiction]|].
      split; [lia | intros _; lia].
    + destruct (Z.eqb_spec (ms mod 10) 0) as [E2|E2]; simpl.
      * split; [split; [auto | reflexivity]|]. split; [lia | intros _; lia].
      * split; [split; [discriminate | intros [C _]; contradiction]|].
        split; [lia | intros _; lia].
Qed.

Lemma dateToISO8601_fields_4 (offset : string) (date : Date) :
  dateToISO8601_fields (of_Z 4) offset date
  = date_hours_minutes date ++ offset.
Proof.
  unfold dateToISO8601_fields, date_hours_minutes. cbv zeta.
  replace (Num.gt (of_Z 4) (of_Z 1)) with true by reflexivity.
  replace (Num.gt (of_Z 4) (of_Z 2)) with true by reflexivity.
  replace (Num.gt (of_Z 4) (of_Z 3)) with true by reflexivity.
  replace (Num.gt (of_Z 4) (of_Z 4)) with false by reflexivity.
  replace (Num.gt (of_Z 4) (of_Z 5)) with false by reflexivity.
  cbv iota. change ("" ++ ?x) with x.
  now rewrite ?StrFacts.app_assoc.
Qed.

Lemma dateToISO8601_fields_6 (offset : string) (t : Z) :
  dateToISO8601_fields (of_Z 6) offset (MkDate (Some t))
  = date_hours_minutes (MkDate (Some t))
    ++ ":" ++ seconds_text (Time.SecFromTime t) (Time.msFromTime t)
    ++ offset.
Proof.
  unfold dateToISO8601_fields, date_hours_minutes, seconds_text. cbv zeta.
  replace (Num.gt (of_Z 6) (of_Z 1)) with true by reflexivity.
  replace (Num.gt (of_Z 6) (of_Z 2)) with true by reflexivity.
  replace (Num.gt (of_Z 6) (of_Z 3)) with true by reflexivity.
  replace (Num.gt (of_Z 6) (of_Z 5)) with true by reflexivity.
  cbv iota. change ("" ++ ?x) with x.
  change (getUTCSeconds (MkDate (Some t))) with (of_Z (Time.SecFromTime t)).
  change (getUTCMilliseconds (MkDate (Some t)))
    with (of_Z (Time.msFromTime t)).
  now rewrite ?StrFacts.app_assoc.
Qed.

(** C4, as the code has it: at format 6 (also the default format) and for
    every valid date whose milliseconds are not 0, the formatter prints the
    seconds as two digits of whole seconds, a point, and the milliseconds as
    a decimal fraction of a second without the zeros at its end: one to three
    digits.  The fraction has two digits exactly when the milliseconds are a
    multiple of 10 and not of 100. *)
Theorem C4_seconds_fraction_at_format_6 (t : Z) :
  Time.msFromTime t <> 0 ->
  let date := MkDate (Some t) in
  let ms := Time.msFromTime t in
  exists hm : string,
    dateToISO8601 date (Some (of_Z 4)) None = Return (hm ++ "Z")
    /\ dateToISO8601 date (Some (of_Z 6)) None =
       Return (hm ++ ":" ++ two_digits (Time.SecFromTime t)
                  ++ "." ++ fraction_digits ms ++ "Z")
    /\ dateToISO8601 date None None =
       dateToISO8601 date (Some (of_Z 6)) None
    /\ fraction_digits ms
       ++ Str.repeat0 (3 - String.length (fraction_digits ms))
       = three_digits ms
    /\ no_zero_at_end (fraction_digits ms) = true
    /\ (1 <= String.length (fraction_digits ms) <= 3)%nat
    /\ (String.length (fraction_digits ms) = 2%nat
        <-> ms mod 10 = 0 /\ ms mod 100 <> 0).
Proof.
  intros Hnz date ms.
  assert (Hs : 0 <= Time.SecFromTime t < 60)
    by (apply Z.mod_pos_bound; lia).
  assert (Hms : 0 <= ms < 1000)
    by (apply Z.mod_pos_bound; reflexivity).
  exists (date_hours_minutes date).
  split; [|split; [|split; [|split; [|split]]]].
  - rewrite dateToISO8601_default by reflexivity.
    change (precision (Some (of_Z 4))) with (of_Z 4).
    now rewrite dateToISO8601_fields_4.
  - rewrite dateToISO8601_default by reflexivity.
    change (precision (Some (of_Z 6))) with (of_Z 6).
    unfold date. rewrite dateToISO8601_fields_6.
    rewrite seconds_text_spec by assumption.
    unfold fraction. fold ms.
    destruct (Z.eqb_spec ms 0) as [E|_]; [contradiction|].
    now rewrite ?StrFacts.app_assoc.
  - now rewrite !dateToISO8601_default by reflexivity.
  - now apply fraction_digits_spec.
  - now apply fraction_digits_spec.
  - destruct (fraction_digits_length ms Hms) as (H2 & H3 & H1).
    split; [split; [apply H1; exact Hnz | exact H3] | exact H2].
Qed.

Lemma C4_seconds_fraction_at_format_6_witness :
  Time.msFromTime 869080830450 <> 0
  /\ exists hm : string,
       dateToISO8601 (MkDate (Some 869080830450)) (Some (of_Z 4)) None
       = Return (hm ++ "Z")
       /\ dateToISO8601 (MkDate (Some 869080830450)) (Some (of_Z 6)) None
          = Return (hm ++ ":30.45Z").
Proof.
  assert (H : Time.msFromTime 869080830450 <> 0) by discriminate.
  split; [exact H|].
  destruct (C4_seconds_fraction_at_format_6 869080830450 H)
    as (hm & H4 & H6 & _).
  exists hm. split; [exact H4 | exact H6].
Defined.

Lemma C4_counterexample :
  dateToISO8601 (MkDate (Some 869080830123)) (Some (of_Z 6)) None
  = Return "1997-07-16T19:20:30.123Z"
  /\ ends_with_two_fraction_digits "1997-07-16T19:20:30.123Z" = false
  /\ dateToISO8601 (MkDate (Some 869080830500)) (Some (of_Z 6)) None
     = Return "1997-07-16T19:20:30.5Z"
  /\ ends_with_two_fraction_digits "1997-07-16T19:20:30.5Z" = false.
Proof. vm_compute. repeat split. Qed.

Example format_6_samples :
  map (fun t => dateToISO8601 (MkDate (Some t)) None None)
      [869080830450; 869080830500; 869080805007; 869080800001; -1]
  = map Return
      ["1997-07-16T19:20:30.45Z"; "1997-07-16T19:20:30.5Z";
       "1997-07-16T19:20:05.007Z"; "1997-07-16T19:20:00.001Z";
       "1969-12-31T23:59:59.999Z"].
Proof. vm_compute. reflexivity. Qed.

Example format_3_sample :
  dateToISO8601 (MkDate (Some 869080830450)) (Some (of_Z 3)) None
  = Return "1997-07-16".
Proof. vm_compute. reflexivity. Qed.

(** ** Which values render *)

(** Each type name is that of one kind of value: the constructor on which
    [getParamXML] is defined and the name its switch tests agree. *)
Lemma dataTypeOf_cases (data : value) (type : string) :
  dataTypeOf data = Return type ->
  (type = "date" <-> exists d, data = VDate d)
  /\ (type = "array" <-> exists items, data = VArray items)
  /\ (type = "struct" <-> exists members, data = VObject members)
  /\ (type = "boolean" <-> exists b, data = VBoolean b)
  /\ (type = "i4" \/ type = "double" <-> exists n, data = VNumber n)
  /\ (type = "string" <-> exists s, data = VString s)
  /\ (type = "undefined" <-> data = VUndefined)
  /\ (type = "bigint" <-> exists z, data = VBigInt z)
  /\ (type = "symbol" <-> exists d, data = VSymbol d).
Proof.
  intros H.
  destruct data as [[| |b|n|z|s|d]|d|items|members]; simpl in H;
    try discriminate H;
    try (destruct (Num.strict_eq (Num.Math_round n) n));
    injection H as <-;
    repeat split;
    try (intros [E|E]; discriminate E);
    try (intros E; discriminate E);
    try (intros [x E]; discriminate E);
    eauto.
Qed.

(** The switch of [dataTypeOf], on [typeof o]. *)
Lemma dataTypeOf_switch (o : value) :
  (typeof o = "number" ->
   exists n, o = VNumber n
     /\ dataTypeOf o =
        Return (if Num.strict_eq (Num.Math_round n) n then "i4"
                else "double"))
  /\ (typeof o = "object" ->
      dataTypeOf o =
      let* c := get_constructor o in
      Return (match c with
              | CDate => "date"
              | CArray => "array"
              | COther => "struct"
              end))
  /\ (typeof o <> "number" -> typeof o <> "object" ->
      dataTypeOf o = Return (typeof o)).
Proof.
  destruct o as [[| |b|n|z|s|d]|d|items|members]; simpl;
    repeat split; intros; try discriminate; try reflexivity; try congruence.
  now exists n.
Qed.

(** The switch of [getParamXML], on the type name. *)
Lemma getParamXML_dispatch (data : value) :
  match dataTypeOf data with
  | Throw e => getParamXML data = Throw e
  | Return type =>
      match data with
      | VDate d => type = "date" /\ getParamXML data = toDateXML d
      | VArray items =>
          type = "array" /\ getParamXML data = toArrayXML getParamXML items
      | VObject members =>
          type = "struct"
          /\ getParamXML data = toStructXML getParamXML members
      | VBoolean _ =>
          type = "boolean" /\ getParamXML data = Return (toBooleanXML data)
      | VPrim p =>
          ~ In type ["date"; "array"; "struct"; "boolean"]
          /\ getParamXML data = toValueXML type p
      end
  end.
Proof.
  destruct data as [[| |b|n|z|s|d]|d|items|members]; simpl;
    try (destruct (Num.strict_eq (Num.Math_round n) n));
    try (split; [|reflexivity]); try reflexivity;
    intros H; simpl in H; intuition discriminate.
Qed.

Lemma toDateXML_returns (d : Date) : returns (toDateXML d).
Proof.
  unfold toDateXML. rewrite dateToISO8601_default by reflexivity.
  cbn [bind]. auto.
Qed.






(** ** Calls and responses *)

(** What the constructor stores as the method name. *)
Lemma XMLRPCMessage_method (methodname : option string)
    (ps : option (list value)) :
  truthy_method (method (XMLRPCMessage methodname ps)) = true
  /\ method (XMLRPCMessage methodname ps) =
     Some (if falsy_string methodname then "system.listMethods"
           else match methodname with Some name => name | None => "" end)
  /\ is_fault (XMLRPCMessage methodname ps) = false.
Proof.
  destruct methodname as [[|c name]|]; repeat split; reflexivity.
Qed.

(** *** Where a tag can occur in a document *)

Lemma absent_app_false (c : ascii) (u v : string) :
  absent c (u ++ String c v) = false.
Proof.
  induction u as [|a u IH]; simpl.
  - now rewrite Ascii.eqb_refl.
  - rewrite IH. apply andb_false_r.
Qed.

Lemma starts_with_app_l (n x y : string) :
  Str.starts_with n x = true -> Str.starts_with n (x ++ y) = true.
Proof.
  revert x. induction n as [|a n IH]; intros x H.
  - reflexivity.
  - destruct x as [|b x]; [discriminate H|].
    cbn [append Str.starts_with] in *.
    apply andb_true_iff in H. destruct H as [H1 H2].
    rewrite H1. now apply IH.
Qed.

(** A beginning of [x ++ c :: y] that is not one of [x] runs over [c]. *)
Lemma starts_with_across (n x : string) (c : ascii) (y : string) :
  Str.starts_with n (x ++ String c y) = true ->
  Str.starts_with n x = true \/ exists n2, n = x ++ String c n2.
Proof.
  revert x. induction n as [|a n IH]; intros x H.
  - left. reflexivity.
  - destruct x as [|b x]; cbn [append Str.starts_with] in H;
      apply andb_true_iff in H; destruct H as [H1 H2];
      apply Ascii.eqb_eq in H1; subst a.
    + right. now exists n.
    + destruct (IH x H2) as [Hp | [n2 ->]].
      * left. cbn [Str.starts_with]. now rewrite Ascii.eqb_refl.
      * right. now exists n2.
Qed.

(** A needle [a :: n'] in which [c] occurs at most as its first character
    cannot run over a [c] that has text of the needle before it: it occurs
    in [x ++ c :: y] only where it occurs in [x] or in [c :: y]. *)
Lemma contains_at_boundary (a : ascii) (n' x : string) (c : ascii)
    (y : string) :
  absent c n' = true ->
  Str.contains (String a n') (x ++ String c y)
  = Str.contains (String a n') x || Str.contains (String a n') (String c y).
Proof.
  intros Ha. induction x as [|b x IH].
  - reflexivity.
  - cbn [append]. change (Str.contains ?n (String ?h ?r))
      with (Str.starts_with n (String h r) || Str.contains n r) at 1 2.
    rewrite IH.
    assert (E : Str.starts_with (String a n') (String b (x ++ String c y))
                = Str.starts_with (String a n') (String b x)).
    { destruct (Str.starts_with (String a n') (String b x)) eqn:Ep.
      - now apply (starts_with_app_l _ (String b x) (String c y)).
      - destruct (Str.starts_with (String a n')
                    (String b (x ++ String c y))) eqn:Eq; [|reflexivity].
        destruct (starts_with_across _ (String b x) c y Eq) as [Hp | [n2 Hn]].
        + congruence.
        + cbn [append] in Hn. injection Hn as _ Hn. subst n'.
          now rewrite absent_app_false in Ha. }
    rewrite E. now rewrite !orb_assoc.
Qed.

(** Evaluates [contains] through the literal text of a document. *)
Ltac through_text :=
  cbn [append Str.contains Str.starts_with Ascii.eqb Bool.eqb andb orb
       ascii_of_nat ascii_of_pos].

Lemma contains_entries (tag : string) (fault : bool) (xs : list string)
    (rest : string) :
  call_tag tag ->
  Str.contains tag (Str.cat (map (param_entry fault) xs) ++ rest)
  = existsb (Str.contains tag) xs || Str.contains tag rest.
Proof.
  intros Ht. induction xs as [|x xs IH]; [reflexivity|].
  cbn [map Str.cat existsb]. rewrite <- orb_assoc, <- IH.
  set (tl := Str.cat (map (param_entry fault) xs) ++ rest).
  rewrite StrFacts.app_assoc. fold tl. clearbody tl.
  destruct Ht as [-> | ->]; destruct fault; unfold param_entry, nl;
    repeat rewrite StrFacts.app_assoc; through_text;
    rewrite contains_at_boundary by reflexivity;
    through_text; reflexivity.
Qed.

(** A tag of a call occurs in a response only inside a rendered value. *)
Lemma contains_response_document (tag : string) (fault : bool)
    (xs : list string) :
  call_tag tag ->
  Str.contains tag (response_document fault xs)
  = existsb (Str.contains tag) xs.
Proof.
  intros Ht. unfold response_document, envelope, dquote, nl.
  repeat rewrite StrFacts.app_assoc.
  pose proof (contains_entries tag fault xs) as E.
  destruct Ht as [-> | ->]; destruct fault; through_text;
    rewrite (E _ (or_introl eq_refl)) || rewrite (E _ (or_intror eq_refl));
    through_text; apply orb_false_r.
Qed.

Lemma response_document_is_response (fault : bool) (xs : list string) :
  is_response_document (response_document fault xs)
  = negb (existsb (Str.contains "<methodCall>") xs)
    && negb (existsb (Str.contains "<methodName>") xs).
Proof.
  unfold is_response_document.
  rewrite !contains_response_document by (unfold call_tag; auto).
  replace (Str.starts_with _ (response_document fault xs)) with true;
    [reflexivity|].
  unfold response_document, dquote, nl. through_text. reflexivity.
Qed.

(** C2, as the code has it: a message whose [method] property is absent or
    empty when [xml] runs renders as a response: the declaration line,
    [<methodResponse>], the params or fault envelope, [</methodResponse>];
    [<methodCall>] and [<methodName>] occur in it only where the text of a
    rendered value holds them.  The constructor never builds such a message:
    it stores ['system.listMethods'] when no method name is given, and every
    message it builds renders as a call. *)
Theorem C2_response_when_method_is_absent (this : message) :
  truthy_method (method this) = false ->
  xml this =
    (let* xs := mapM getParamXML (params this) in
     Return (response_document (is_fault this) xs))
  /\ (forall xs : list string,
       is_response_document (response_document (is_fault this) xs)
       = negb (existsb (Str.contains "<methodCall>") xs)
         && negb (existsb (Str.contains "<methodName>") xs))
  /\ (forall (methodname : option string) (ps : option (list value)),
       xml (XMLRPCMessage methodname ps) =
       let* xs := mapM getParamXML (params (XMLRPCMessage methodname ps)) in
       Return (call_document
                 (if falsy_string methodname then "system.listMethods"
                  else match methodname with
                       | Some name => name
                       | None => ""
                       end) xs)).
Proof.
  intros Hm. split; [|split].
  - rewrite xml_shape. unfold document_open, document_close. rewrite Hm.
    destruct (mapM getParamXML (params this)) as [xs|e]; simpl; [|reflexivity].
    unfold response_document. norm_app.
  - intros xs. apply response_document_is_response.
  - intros methodname ps. rewrite xml_shape.
    destruct (XMLRPCMessage_method methodname ps) as (Ht & Hn & Hf).
    unfold document_open, document_close. rewrite Ht, Hn, Hf.
    destruct (mapM getParamXML _) as [xs|e]; cbn [bind]; [|reflexivity].
    unfold call_document. f_equal. now rewrite ?StrFacts.app_assoc.
Qed.

Lemma C2_response_when_method_is_absent_witness :
  truthy_method (method (MkMessage None [VString "ok"] false)) = false
  /\ xml (MkMessage None [VString "ok"] false)
     = Return ("<?xml version=" ++ dquote ++ "1.0" ++ dquote ++ "?>" ++ nl
               ++ "<methodResponse>" ++ nl
               ++ "<params>" ++ nl
               ++ "<param>" ++ nl ++ "<value><string>ok</string></value>"
               ++ nl ++ "</param>" ++ nl
               ++ "</params>" ++ nl
               ++ "</methodResponse>").
Proof.
  split; [reflexivity|].
  exact (proj1 (C2_response_when_method_is_absent
                  (MkMessage None [VString "ok"] false) eq_refl)).
Defined.

Lemma C2_counterexample :
  exists doc : string,
    xml (XMLRPCMessage None None) = Return doc
    /\ doc = "<?xml version=" ++ dquote ++ "1.0" ++ dquote ++ "?>" ++ nl
             ++ "<methodCall>" ++ nl
             ++ "<methodName>system.listMethods</methodName>" ++ nl
             ++ "<params>" ++ nl
             ++ "</params>" ++ nl
             ++ "</methodCall>"
    /\ is_response_document doc = false
    /\ Str.contains "<methodCall>" doc = true
    /\ Str.contains "<methodName>" doc = true.
Proof.
  eexists. split; [vm_compute; reflexivity|].
  vm_compute. repeat split.
Qed.

(** * More properties of the encoder *)

(** ** Comparisons with a format *)

Lemma lt_of_Z_mono (a b : Z) (f : number) :
  b <= a -> Num.lt (of_Z a) f = true -> Num.lt (of_Z b) f = true.
Proof.
  intros Hab. destruct f as [|s|m e]; [discriminate | now destruct s |].
  unfold Num.lt, Num.align, of_Z.
  pose proof (pow10_pos (0 - Z.min 0 e) ltac:(lia)) as HP.
  set (P := 10 ^ (0 - Z.min 0 e)) in *.
  set (Q := m * 10 ^ (e - Z.min 0 e)).
  rewrite !Z.ltb_lt. nia.
Qed.

Lemma gt_of_Z_mono (a b : Z) (f : number) :
  b <= a -> Num.gt f (of_Z a) = true -> Num.gt f (of_Z b) = true.
Proof. unfold Num.gt. apply lt_of_Z_mono. Qed.

Lemma gt_of_Z_mono_false (a b : Z) (f : number) :
  a <= b -> Num.gt f (of_Z a) = false -> Num.gt f (of_Z b) = false.
Proof.
  intros Hab Ha. destruct (Num.gt f (of_Z b)) eqn:Hb; [|reflexivity].
  rewrite (gt_of_Z_mono b a f Hab Hb) in Ha. discriminate Ha.
Qed.

Lemma precision_above (f : number) :
  Num.gt f (of_Z 5) = true -> precision (Some f) = f.
Proof.
  intros H. unfold precision, falsy_number.
  destruct f as [|s|m e]; [discriminate H | reflexivity |].
  unfold Num.is_zero. destruct (Z.eqb_spec m 0) as [->|_]; [|reflexivity].
  unfold Num.gt, Num.lt, Num.align, of_Z in H.
  pose proof (pow10_pos (0 - Z.min 0 e) ltac:(lia)) as HP.
  apply Z.ltb_lt in H. lia.
Qed.

Lemma precision_truthy (f : number) :
  falsy_number (Some f) = false -> precision (Some f) = f.
Proof. intros H. unfold precision. now rewrite H. Qed.

Lemma precision_falsy (format : option number) :
  falsy_number format = true -> precision format = of_Z 6.
Proof.
  intros H. unfold precision. destruct format as [f|]; [|reflexivity].
  now rewrite H.
Qed.

(** The format reaches the text only through [precision]. *)
Lemma dateToISO8601_precision (dateIn : Date) (format : option number)
    (offset : option string) :
  dateToISO8601 dateIn format offset =
  let* '(_, off, date) := dateToISO8601_args dateIn None offset in
  Return (dateToISO8601_fields (precision format) off date).
Proof.
  unfold dateToISO8601, dateToISO8601_args. fold (precision format).
  destruct offset as [o|]; [|reflexivity].
  destruct (falsy_string (Some o)); [reflexivity|].
  destruct (match_offset o); reflexivity.
Qed.

Lemma dateToISO8601_fields_above_5 (f : number) (offset : string)
    (date : Date) :
  Num.gt f (of_Z 5) = true ->
  dateToISO8601_fields f offset date
  = dateToISO8601_fields (of_Z 6) offset date.
Proof.
  intros H5.
  pose proof (gt_of_Z_mono 5 1 f ltac:(lia) H5) as H1.
  pose proof (gt_of_Z_mono 5 2 f ltac:(lia) H5) as H2.
  pose proof (gt_of_Z_mono 5 3 f ltac:(lia) H5) as H3.
  unfold dateToISO8601_fields. rewrite H1, H2, H3, H5. reflexivity.
Qed.

Lemma dateToISO8601_fields_year_only (f : number) (offset : string)
    (date : Date) :
  Num.gt f (of_Z 1) = false ->
  dateToISO8601_fields f offset date = Num.toString (getUTCFullYear date).
Proof.
  intros H1.
  pose proof (gt_of_Z_mono_false 1 2 f ltac:(lia) H1) as H2.
  pose proof (gt_of_Z_mono_false 1 3 f ltac:(lia) H1) as H3.
  pose proof (gt_of_Z_mono_false 1 4 f ltac:(lia) H1) as H4.
  pose proof (gt_of_Z_mono_false 1 5 f ltac:(lia) H1) as H5.
  unfold dateToISO8601_fields. rewrite H1, H2, H3, H4, H5. reflexivity.
Qed.

(** X1: the format argument of the date formatter works by thresholds.  A
    falsy format (left out, 0, NaN) and every format above 5 (7, 6.5,
    Infinity) give the text of format 6, whatever the offset; a format that
    is not falsy and not above 1 (1, 0.5, a negative number) gives the year
    alone. *)
Theorem X1_format_thresholds (dateIn : Date) (offset : option string) :
  (forall format : option number,
      falsy_number format = true ->
      dateToISO8601 dateIn format offset
      = dateToISO8601 dateIn (Some (of_Z 6)) offset)
  /\ (forall f : number,
       Num.gt f (of_Z 5) = true ->
       dateToISO8601 dateIn (Some f) offset
       = dateToISO8601 dateIn (Some (of_Z 6)) offset)
  /\ (forall f : number,
       falsy_number (Some f) = false ->
       Num.gt f (of_Z 1) = false ->
       dateToISO8601 dateIn (Some f) None
       = Return (Num.toString (getUTCFullYear dateIn))).
Proof.
  split; [|split].
  - intros format H. rewrite !dateToISO8601_precision.
    now rewrite (precision_falsy format H).
  - intros f H. rewrite !dateToISO8601_precision.
    rewrite (precision_above f H).
    change (precision (Some (of_Z 6))) with (of_Z 6).
    destruct (dateToISO8601_args dateIn None offset) as [[[fm off] date]|e];
      [|reflexivity].
    cbn [bind]. now rewrite dateToISO8601_fields_above_5.
  - intros f Hf H1. rewrite dateToISO8601_default by reflexivity.
    rewrite (precision_truthy f Hf).
    now rewrite dateToISO8601_fields_year_only.
Qed.

Lemma X1_format_thresholds_witness :
  dateToISO8601 (MkDate (Some 869080830450)) (Some (of_Z 0)) (Some "+01:00")
  = dateToISO8601 (MkDate (Some 869080830450)) (Some (of_Z 6)) (Some "+01:00")
  /\ dateToISO8601 (MkDate (Some 869080830450)) (Some (Fin 65 (-1)))
                   (Some "+01:00")
     = dateToISO8601 (MkDate (Some 869080830450)) (Some (of_Z 6))
                     (Some "+01:00")
  /\ dateToISO8601 (MkDate (Some 869080830450)) (Some (of_Z (-3))) None
     = Return "1997".
Proof.
  split; [|split].
  - exact (proj1 (X1_format_thresholds (MkDate (Some 869080830450))
                    (Some "+01:00")) (Some (of_Z 0)) eq_refl).
  - exact (proj1 (proj2 (X1_format_thresholds (MkDate (Some 869080830450))
                           (Some "+01:00"))) (Fin 65 (-1)) eq_refl).
  - exact (proj2 (proj2 (X1_format_thresholds (MkDate (Some 869080830450))
                           None)) (of_Z (-3)) eq_refl eq_refl).
Defined.

(** ** The fields of a valid date *)

Lemma DaysInYear_cases (y : Z) :
  Time.DaysInYear y = 365 \/ Time.DaysInYear y = 366.
Proof.
  unfold Time.DaysInYear.
  destruct (y mod 4 =? 0), (y mod 100 =? 0), (y mod 400 =? 0); simpl; auto.
Qed.

(** A year after the first day of [y] starts [DaysInYear y] days later. *)
Lemma DayFromYear_succ (y : Z) :
  Time.DayFromYear (y + 1) = Time.DayFromYear y + Time.DaysInYear y.
Proof.
  unfold Time.DayFromYear, Time.DaysInYear.
  destruct (Z.eqb_spec (y mod 4) 0) as [E4|E4];
    destruct (Z.eqb_spec (y mod 100) 0) as [E100|E100];
    destruct (Z.eqb_spec (y mod 400) 0) as [E400|E400];
    cbn [negb]; cbv iota;
    Z.to_euclidean_division_equations; lia.
Qed.

Lemma DayWithinYear_bounds (t : Z) :
  0 <= Time.DayWithinYear t < 365 + Time.InLeapYear t.
Proof.
  unfold Time.DayWithinYear, Time.InLeapYear, Time.YearFromTime.
  pose proof (YearFromDay_spec (Time.Day t)) as H.
  rewrite DayFromYear_succ in H.
  destruct (DaysInYear_cases (Time.YearFromDay (Time.Day t))) as [E|E];
    rewrite E in *; simpl; lia.
Qed.

Lemma InLeapYear_cases (t : Z) :
  Time.InLeapYear t = 0 \/ Time.InLeapYear t = 1.
Proof.
  unfold Time.InLeapYear. destruct (_ =? 366); auto.
Qed.

Lemma MonthFromTime_bounds (t : Z) : 0 <= Time.MonthFromTime t <= 11.
Proof.
  unfold Time.MonthFromTime. cbv zeta.
  repeat match goal with
         | |- context [if ?c then _ else _] => destruct c
         end; lia.
Qed.

Lemma DateFromTime_bounds (t : Z) : 1 <= Time.DateFromTime t <= 31.
Proof.
  pose proof (DayWithinYear_bounds t) as Hd.
  pose proof (InLeapYear_cases t) as Hl.
  unfold Time.DateFromTime, Time.MonthFromTime. cbv zeta.
  set (d := Time.DayWithinYear t) in *.
  set (l := Time.InLeapYear t) in *.
  repeat match goal with
         | |- context [?a <? ?b] => destruct (Z.ltb_spec a b)
         end; cbv iota; lia.
Qed.

Lemma zeropad_checked :
  forallb (fun z => String.eqb (zeropad (of_Z z)) (two_digits z)) (range 100)
  = true.
Proof. vm_compute. reflexivity. Qed.

(** [zeropad] prints a whole number from 0 to 99 on two digits. *)
Lemma zeropad_two_digits (z : Z) :
  0 <= z < 100 -> zeropad (of_Z z) = two_digits z.
Proof.
  intros H. pose proof zeropad_checked as C.
  rewrite forallb_forall in C. apply String.eqb_eq.
  apply C. now apply in_range.
Qed.

Lemma date_hours_minutes_text (t : Z) :
  date_hours_minutes (MkDate (Some t))
  = year_text t ++ "-" ++ month_text t ++ "-" ++ day_text t
    ++ "T" ++ hours_text t ++ ":" ++ minutes_text t.
Proof.
  unfold date_hours_minutes, year_text, month_text, day_text, hours_text,
    minutes_text.
  change (getUTCFullYear (MkDate (Some t))) with (of_Z (Time.YearFromTime t)).
  change (getUTCMonth (MkDate (Some t))) with (of_Z (Time.MonthFromTime t)).
  change (getUTCDate (MkDate (Some t))) with (of_Z (Time.DateFromTime t)).
  change (getUTCHours (MkDate (Some t))) with (of_Z (Time.HourFromTime t)).
  change (getUTCMinutes (MkDate (Some t))) with (of_Z (Time.MinFromTime t)).
  rewrite add_of_Z.
  pose proof (MonthFromTime_bounds t). pose proof (DateFromTime_bounds t).
  assert (0 <= Time.HourFromTime t < 24) by (apply Z.mod_pos_bound; lia).
  assert (0 <= Time.MinFromTime t < 60) by (apply Z.mod_pos_bound; lia).
  rewrite !zeropad_two_digits by lia. reflexivity.
Qed.

Lemma dateToISO8601_fields_level (k : Z) (offset : string) (date : Date) :
  dateToISO8601_fields (of_Z k) offset date =
  Num.toString (getUTCFullYear date)
  ++ (if 1 <? k
      then "-" ++ zeropad (Num.add (getUTCMonth date) (of_Z 1)) else "")
  ++ (if 2 <? k then "-" ++ zeropad (getUTCDate date) else "")
  ++ (if 3 <? k
      then "T" ++ zeropad (getUTCHours date)
           ++ ":" ++ zeropad (getUTCMinutes date) else "")
  ++ (if 5 <? k then
        ":" ++ zeropad
                 (Num.of_string
                    (Num.toString (getUTCSeconds date) ++ "."
                     ++ (if Num.lt (getUTCMilliseconds date) (of_Z 100)
                         then "0" else "")
                     ++ zeropad (getUTCMilliseconds date)))
      else if 4 <? k then ":" ++ zeropad (getUTCSeconds date) else "")
  ++ (if 3 <? k then offset else "").
Proof.
  assert (G : forall a, Num.gt (of_Z k) (of_Z a) = (a <? k)).
  { intros a. unfold Num.gt, Num.lt, Num.align, of_Z.
    change (Z.min 0 0) with 0. change (10 ^ (0 - 0)) with 1.
    now rewrite !Z.mul_1_r. }
  unfold dateToISO8601_fields. cbv zeta. rewrite !G.
  change ("" ++ ?x) with x.
  destruct (1 <? k), (2 <? k), (3 <? k), (5 <? k), (4 <? k);
    rewrite ?StrFacts.app_assoc, ?StrFacts.app_empty_r; cbn [append];
    rewrite ?StrFacts.app_empty_r; reflexivity.
Qed.

Lemma length_app (a b : string) :
  String.length (a ++ b) = (String.length a + String.length b)%nat.
Proof.
  induction a as [|ch a IH]; simpl; [reflexivity | now rewrite IH].
Qed.

(** The format levels 1 to 5 on a valid date. *)
Ltac level_text t :=
  rewrite dateToISO8601_default by reflexivity;
  match goal with
  | |- context [precision (Some (of_Z ?k))] =>
      change (precision (Some (of_Z k))) with (of_Z k)
  end;
  rewrite dateToISO8601_fields_level;
  pose proof (date_hours_minutes_text t) as HM;
  unfold date_hours_minutes in HM;
  change (getUTCSeconds (MkDate (Some t))) with (of_Z (Time.SecFromTime t));
  cbn [Z.ltb Z.compare Pos.compare Pos.compare_cont];
  rewrite ?StrFacts.app_empty_r.

(** The texts of the format levels 1 to 5, and the ranges of the fields. *)
Lemma dateToISO8601_levels (t : Z) :
  let date := MkDate (Some t) in
  dateToISO8601 date (Some (of_Z 1)) None = Return (year_text t)
  /\ dateToISO8601 date (Some (of_Z 2)) None =
     Return (year_text t ++ "-" ++ month_text t)
  /\ dateToISO8601 date (Some (of_Z 3)) None =
     Return (year_text t ++ "-" ++ month_text t ++ "-" ++ day_text t)
  /\ dateToISO8601 date (Some (of_Z 4)) None =
     Return (year_text t ++ "-" ++ month_text t ++ "-" ++ day_text t
             ++ "T" ++ hours_text t ++ ":" ++ minutes_text t ++ "Z")
  /\ dateToISO8601 date (Some (of_Z 5)) None =
     Return (year_text t ++ "-" ++ month_text t ++ "-" ++ day_text t
             ++ "T" ++ hours_text t ++ ":" ++ minutes_text t
             ++ ":" ++ seconds_whole_text t ++ "Z")
  /\ 1 <= Time.MonthFromTime t + 1 <= 12
  /\ 1 <= Time.DateFromTime t <= 31
  /\ 0 <= Time.HourFromTime t < 24
  /\ 0 <= Time.MinFromTime t < 60
  /\ 0 <= Time.SecFromTime t < 60.
Proof.
  intros date. subst date.
  pose proof (MonthFromTime_bounds t) as Bm.
  pose proof (DateFromTime_bounds t) as Bd.
  assert (Bh : 0 <= Time.HourFromTime t < 24) by (apply Z.mod_pos_bound; lia).
  assert (Bn : 0 <= Time.MinFromTime t < 60) by (apply Z.mod_pos_bound; lia).
  assert (Bs : 0 <= Time.SecFromTime t < 60) by (apply Z.mod_pos_bound; lia).
  assert (Em : zeropad (Num.add (getUTCMonth (MkDate (Some t))) (of_Z 1))
               = month_text t).
  { change (getUTCMonth (MkDate (Some t))) with (of_Z (Time.MonthFromTime t)).
    rewrite add_of_Z. apply zeropad_two_digits. lia. }
  assert (Ed : zeropad (getUTCDate (MkDate (Some t))) = day_text t)
    by (apply zeropad_two_digits; lia).
  assert (Eh : zeropad (getUTCHours (MkDate (Some t))) = hours_text t)
    by (apply zeropad_two_digits; lia).
  assert (En : zeropad (getUTCMinutes (MkDate (Some t))) = minutes_text t)
    by (apply zeropad_two_digits; lia).
  assert (Es : zeropad (of_Z (Time.SecFromTime t)) = seconds_whole_text t)
    by (apply zeropad_two_digits; lia).
  repeat split; try lia; level_text t; rewrite ?Em, ?Ed, ?Eh, ?En, ?Es;
    unfold year_text; f_equal;
    rewrite ?StrFacts.app_assoc; cbn [append];
    rewrite ?StrFacts.app_assoc; reflexivity.
Qed.


(** X2: for every valid date the formatter prints the month (01 to 12), the
    day (01 to 31), the hours (00 to 23), the minutes and the whole seconds
    (00 to 59) on exactly two digits, after the year printed as a plain
    number: formats 1 to 5 give the year, then "-MM", "-DD", "Thh:mm" and
    ":ss" in turn, with "Z" from format 4 on. *)
Theorem X2_date_fields_on_two_digits (t : Z) :
  let date := MkDate (Some t) in
  dateToISO8601 date (Some (of_Z 1)) None = Return (year_text t)
  /\ dateToISO8601 date (Some (of_Z 2)) None =
     Return (year_text t ++ "-" ++ month_text t)
  /\ dateToISO8601 date (Some (of_Z 3)) None =
     Return (year_text t ++ "-" ++ month_text t ++ "-" ++ day_text t)
  /\ dateToISO8601 date (Some (of_Z 4)) None =
     Return (year_text t ++ "-" ++ month_text t ++ "-" ++ day_text t
             ++ "T" ++ hours_text t ++ ":" ++ minutes_text t ++ "Z")
  /\ dateToISO8601 date (Some (of_Z 5)) None =
     Return (year_text t ++ "-" ++ month_text t ++ "-" ++ day_text t
             ++ "T" ++ hours_text t ++ ":" ++ minutes_text t
             ++ ":" ++ seconds_whole_text t ++ "Z")
  /\ 1 <= Time.MonthFromTime t + 1 <= 12
  /\ 1 <= Time.DateFromTime t <= 31
  /\ 0 <= Time.HourFromTime t < 24
  /\ 0 <= Time.MinFromTime t < 60
  /\ 0 <= Time.SecFromTime t < 60.
Proof.
  intros date. subst date.
  pose proof (MonthFromTime_bounds t) as Bm.
  pose proof (DateFromTime_bounds t) as Bd.
  assert (Bh : 0 <= Time.HourFromTime t < 24) by (apply Z.mod_pos_bound; lia).
  assert (Bn : 0 <= Time.MinFromTime t < 60) by (apply Z.mod_pos_bound; lia).
  assert (Bs : 0 <= Time.SecFromTime t < 60) by (apply Z.mod_pos_bound; lia).
  assert (Em : zeropad (Num.add (getUTCMonth (MkDate (Some t))) (of_Z 1))
               = month_text t).
  { change (getUTCMonth (MkDate (Some t))) with (of_Z (Time.MonthFromTime t)).
    rewrite add_of_Z. apply zeropad_two_digits. lia. }
  assert (Ed : zeropad (getUTCDate (MkDate (Some t))) = day_text t)
    by (apply zeropad_two_digits; lia).
  assert (Eh : zeropad (getUTCHours (MkDate (Some t))) = hours_text t)
    by (apply zeropad_two_digits; lia).
  assert (En : zeropad (getUTCMinutes (MkDate (Some t))) = minutes_text t)
    by (apply zeropad_two_digits; lia).
  assert (Es : zeropad (of_Z (Time.SecFromTime t)) = seconds_whole_text t)
    by (apply zeropad_two_digits; lia).
  repeat split; try lia; level_text t; rewrite ?Em, ?Ed, ?Eh, ?En, ?Es;
    unfold year_text; f_equal;
    rewrite ?StrFacts.app_assoc; cbn [append];
    rewrite ?StrFacts.app_assoc; reflexivity.
Qed.

Example date_text_samples :
  map (fun a => dateToISO8601 (MkDate (Some (fst a))) (Some (of_Z (snd a))) None)
      [(869080830450, 1); (869080830450, 2); (869080830450, 3);
       (869080830450, 4); (869080830450, 5); (-62198755200000, 3);
       (-59958144000000, 3); (8640000000000000, 5)]
  = map Return
      ["1997"; "1997-07"; "1997-07-16"; "1997-07-16T19:20Z";
       "1997-07-16T19:20:30Z"; "-1-01-01"; "70-01-01";
       "275760-09-13T00:00:00Z"].
Proof. vm_compute. reflexivity. Qed.

Lemma year_text_length_checked :
  forallb (fun y =>
     Nat.eqb (String.length (Num.toString (of_Z y)))
             (if y <? 10 then 1 else if y <? 100 then 2
              else if y <? 1000 then 3 else 4))
    (range (Z.to_nat 10000)) = true.
Proof. vm_compute. reflexivity. Qed.

Lemma year_text_length (t : Z) :
  0 <= Time.YearFromTime t < 10000 ->
  String.length (year_text t)
  = if Time.YearFromTime t <? 10 then 1%nat
    else if Time.YearFromTime t <? 100 then 2%nat
    else if Time.YearFromTime t <? 1000 then 3%nat else 4%nat.
Proof.
  intros H. pose proof year_text_length_checked as C.
  rewrite forallb_forall in C. apply Nat.eqb_eq.
  unfold year_text. apply C. apply in_range. lia.
Qed.

(** X3: the year is not padded.  For a date in the years 1000 to 9999 the
    texts of formats 3 and 5 have the 10 and 20 characters of YYYY-MM-DD and
    YYYY-MM-DDThh:mm:ssZ; for a date in the years 0 to 999 they are shorter,
    the year taking as many characters as it has digits. *)
Theorem X3_year_is_not_padded (t : Z) (text3 text5 : string) :
  0 <= Time.YearFromTime t < 10000 ->
  dateToISO8601 (MkDate (Some t)) (Some (of_Z 3)) None = Return text3 ->
  dateToISO8601 (MkDate (Some t)) (Some (of_Z 5)) None = Return text5 ->
  (1000 <= Time.YearFromTime t ->
   String.length text3 = 10%nat /\ String.length text5 = 20%nat)
  /\ (Time.YearFromTime t < 1000 ->
      (String.length text3 < 10)%nat /\ (String.length text5 < 20)%nat)
  /\ String.length text3 = (String.length (year_text t) + 6)%nat
  /\ String.length text5 = (String.length (year_text t) + 16)%nat.
Proof.
  intros Hy H3 H5.
  destruct (dateToISO8601_levels t) as (_ & _ & E3 & _ & E5 & _).
  cbv zeta in E3, E5. rewrite E3 in H3. rewrite E5 in H5.
  injection H3 as <-. injection H5 as <-.
  pose proof (year_text_length t Hy) as L.
  unfold month_text, day_text, hours_text, minutes_text, seconds_whole_text,
    two_digits.
  rewrite !length_app. cbn [String.length append]. rewrite L.
  repeat split;
    repeat match goal with
           | |- context [?a <? ?b] => destruct (Z.ltb_spec a b)
           end; lia.
Qed.

Lemma X3_year_is_not_padded_witness :
  0 <= Time.YearFromTime (-59958144000000) < 10000
  /\ dateToISO8601 (MkDate (Some (-59958144000000))) (Some (of_Z 3)) None
     = Return "70-01-01"
  /\ String.length "70-01-01"
     = (String.length (year_text (-59958144000000)) + 6)%nat.
Proof.
  assert (H : 0 <= Time.YearFromTime (-59958144000000) < 10000)
    by (split; [apply Z.leb_le | apply Z.ltb_lt]; reflexivity).
  split; [exact H|]. split; [reflexivity|].
  exact (proj1 (proj2 (proj2
           (X3_year_is_not_padded (-59958144000000)
              "70-01-01" "70-01-01T00:00:00Z" H eq_refl eq_refl)))).
Defined.

(** X4: when the milliseconds of a valid date are 0, format 6 (and so the
    default format, which [toDateXML] uses) prints no fraction: its text is
    the text of format 5. *)
Theorem X4_no_fraction_at_zero_milliseconds (t : Z) :
  Time.msFromTime t = 0 ->
  dateToISO8601 (MkDate (Some t)) (Some (of_Z 6)) None
  = dateToISO8601 (MkDate (Some t)) (Some (of_Z 5)) None
  /\ dateToISO8601 (MkDate (Some t)) None None
     = dateToISO8601 (MkDate (Some t)) (Some (of_Z 5)) None.
Proof.
  intros Hms.
  assert (Bs : 0 <= Time.SecFromTime t < 60) by (apply Z.mod_pos_bound; lia).
  assert (E : dateToISO8601 (MkDate (Some t)) (Some (of_Z 6)) None
              = dateToISO8601 (MkDate (Some t)) (Some (of_Z 5)) None).
  { destruct (dateToISO8601_levels t) as (_ & _ & _ & _ & E5 & _).
    cbv zeta in E5. rewrite E5.
    rewrite dateToISO8601_default by reflexivity.
    change (precision (Some (of_Z 6))) with (of_Z 6).
    rewrite dateToISO8601_fields_6, date_hours_minutes_text.
    rewrite seconds_text_spec by lia.
    rewrite Hms. unfold fraction, seconds_whole_text. cbn [Z.eqb].
    f_equal. rewrite ?StrFacts.app_assoc. cbn [append].
    now rewrite ?StrFacts.app_assoc. }
  split; [exact E|].
  rewrite <- E. now rewrite !dateToISO8601_default by reflexivity.
Qed.

Lemma X4_no_fraction_at_zero_milliseconds_witness :
  Time.msFromTime 869080830000 = 0
  /\ dateToISO8601 (MkDate (Some 869080830000)) None None
     = Return "1997-07-16T19:20:30Z".
Proof.
  split; [reflexivity|].
  exact (proj2 (X4_no_fraction_at_zero_milliseconds 869080830000 eq_refl)).
Defined.

(** ** Invalid dates *)

Lemma invalid_fields (p : number) (offset : string) :
  In (dateToISO8601_fields p offset (MkDate None))
     ["NaN"; "NaN-NaN"; "NaN-NaN-NaN";
      "NaN-NaN-NaNTNaN:NaN" ++ offset; invalid_date_text ++ offset].
Proof.
  unfold dateToISO8601_fields. cbv zeta.
  destruct (Num.gt p (of_Z 5)) eqn:H5.
  - rewrite (gt_of_Z_mono 5 1 p), (gt_of_Z_mono 5 2 p), (gt_of_Z_mono 5 3 p)
      by (assumption || lia).
    do 4 right. left. vm_compute. reflexivity.
  - destruct (Num.gt p (of_Z 4)) eqn:H4.
    + rewrite (gt_of_Z_mono 4 1 p), (gt_of_Z_mono 4 2 p), (gt_of_Z_mono 4 3 p)
        by (assumption || lia).
      do 4 right. left. vm_compute. reflexivity.
    + destruct (Num.gt p (of_Z 3)) eqn:H3.
      * rewrite (gt_of_Z_mono 3 1 p), (gt_of_Z_mono 3 2 p)
          by (assumption || lia).
        do 3 right. left. vm_compute. reflexivity.
      * destruct (Num.gt p (of_Z 2)) eqn:H2.
        -- rewrite (gt_of_Z_mono 2 1 p) by (assumption || lia).
           do 2 right. left. reflexivity.
        -- destruct (Num.gt p (of_Z 1)); [right|]; left; reflexivity.
Qed.

(** X5: a [Date] value never makes the encoder raise, and an invalid date is
    not refused: every field prints as NaN.  Whatever the format, the text of
    an invalid date is NaN, NaN-NaN, NaN-NaN-NaN, NaN-NaN-NaNTNaN:NaNZ or
    NaN-NaN-NaNTNaN:NaN:NaNZ, and as a parameter it renders as a
    [dateTime.iso8601] element holding the last of these. *)
Theorem X5_invalid_date_prints_NaN (format : option number) :
  In (dateToISO8601 (MkDate None) format None)
     (map Return ["NaN"; "NaN-NaN"; "NaN-NaN-NaN"; "NaN-NaN-NaNTNaN:NaNZ";
                  "NaN-NaN-NaNTNaN:NaN:NaNZ"])
  /\ getParamXML (VDate (MkDate None)) =
     Return "<dateTime.iso8601>NaN-NaN-NaNTNaN:NaN:NaNZ</dateTime.iso8601>"
  /\ (forall d : Date, returns (getParamXML (VDate d))).
Proof.
  split; [|split].
  - rewrite dateToISO8601_default by reflexivity.
    pose proof (invalid_fields (precision format) "Z") as H.
    cbn [In] in H. cbn [map In].
    destruct H as [H|[H|[H|[H|[H|[]]]]]]; rewrite <- H; auto 6.
  - reflexivity.
  - intros d. apply toDateXML_returns.
Qed.

(** X6: an offset can push a valid instant out of the range of [Date]
    (8.64e15 milliseconds either side of the epoch).  The shifted date is
    then invalid and the formatter returns the NaN text of an invalid date,
    followed from format 4 on by the offset. *)
Theorem X6_offset_out_of_range (t : Z) (format : option number)
    (sign h1 h2 m1 m2 : ascii) :
  is_sign sign = true ->
  Num.is_digit h1 = true -> Num.is_digit h2 = true ->
  Num.is_digit m1 = true -> Num.is_digit m2 = true ->
  8640000000000000
  < Z.abs (t + offset_minutes sign h1 h2 m1 m2 * 60000) ->
  let offset := offset_string sign h1 h2 m1 m2 in
  dateToISO8601 (MkDate (Some t)) format (Some offset)
  = dateToISO8601 (MkDate None) format (Some offset)
  /\ dateToISO8601 (MkDate (Some t)) None (Some offset)
     = Return (invalid_date_text ++ offset).
Proof.
  intros E0 E1 E2 E4 E5 Hr offset.
  assert (A : forall fm,
             dateToISO8601 (MkDate (Some t)) fm (Some offset)
             = Return (dateToISO8601_fields (precision fm) offset
                         (MkDate None))).
  { intros fm. unfold dateToISO8601. subst offset.
    rewrite dateToISO8601_args_offset by assumption. cbn [bind].
    unfold shift_minutes. cbv zeta.
    apply Z.ltb_lt in Hr. now rewrite Hr. }
  assert (B : forall fm,
             dateToISO8601 (MkDate None) fm (Some offset)
             = Return (dateToISO8601_fields (precision fm) offset
                         (MkDate None))).
  { intros fm. unfold dateToISO8601. subst offset.
    now rewrite dateToISO8601_args_offset by assumption. }
  split; [now rewrite A, B|].
  rewrite A. reflexivity.
Qed.

Lemma X6_offset_out_of_range_witness :
  8640000000000000
  < Z.abs (8640000000000000 + offset_minutes "+" "0" "0" "0" "1" * 60000)
  /\ dateToISO8601 (MkDate (Some 8640000000000000)) None (Some "+00:01")
     = Return "NaN-NaN-NaNTNaN:NaN:NaN+00:01".
Proof.
  assert (H : 8640000000000000
              < Z.abs (8640000000000000
                       + offset_minutes "+" "0" "0" "0" "1" * 60000))
    by (apply Z.ltb_lt; reflexivity).
  split; [exact H|].
  exact (proj2 (X6_offset_out_of_range 8640000000000000 None
                  "+" "0" "0" "0" "1"
                  eq_refl eq_refl eq_refl eq_refl eq_refl H)).
Defined.

(** ** An offset inside a longer text *)

Lemma match_here_no_sign (c : ascii) (r : string) :
  is_sign c = false -> match_here (String c r) = None.
Proof.
  intros H. unfold match_here.
  destruct r as [|? [|? [|? [|? [|? ?]]]]]; try reflexivity.
  now rewrite H.
Qed.

(** Text without a sign before the pattern is skipped by [match]. *)
Lemma match_offset_skip (pre s : string) :
  no_sign pre = true -> match_offset (pre ++ s) = match_offset s.
Proof.
  induction pre as [|c pre IH]; intros H; [reflexivity|].
  cbn [no_sign] in H. apply andb_true_iff in H. destruct H as [Hc Hp].
  apply negb_true_iff in Hc.
  cbn [append match_offset]. rewrite (match_here_no_sign _ _ Hc).
  now apply IH.
Qed.

Lemma falsy_string_app (pre s : string) :
  falsy_string (Some s) = false -> falsy_string (Some (pre ++ s)) = false.
Proof.
  intros H. destruct pre; [exact H | reflexivity].
Qed.

(** The arguments worked out from a text that holds an offset. *)
Lemma dateToISO8601_args_inside (dateIn : Date) (format : option number)
    (pre post : string) (sign h1 h2 m1 m2 : ascii) :
  no_sign pre = true ->
  is_sign sign = true ->
  Num.is_digit h1 = true -> Num.is_digit h2 = true ->
  Num.is_digit m1 = true -> Num.is_digit m2 = true ->
  dateToISO8601_args dateIn format
    (Some (pre ++ offset_string sign h1 h2 m1 m2 ++ post))
  = Return (precision format, pre ++ offset_string sign h1 h2 m1 m2 ++ post,
            shift_minutes dateIn (offset_minutes sign h1 h2 m1 m2)).
Proof.
  intros Hp E0 E1 E2 E4 E5.
  pose proof (dateToISO8601_args_offset dateIn format sign h1 h2 m1 m2
                E0 E1 E2 E4 E5) as A.
  unfold dateToISO8601_args in *. fold (precision format) in *.
  rewrite falsy_string_app by reflexivity.
  replace (falsy_string (Some (offset_string sign h1 h2 m1 m2)))
    with false in A by reflexivity.
  rewrite match_offset_skip by exact Hp.
  assert (M : forall rest,
             match_offset (offset_string sign h1 h2 m1 m2 ++ rest)
             = Some (MkGroups (String sign "") (String h1 (String h2 ""))
                              (String m1 (String m2 "")))).
  { intros rest. unfold offset_string. cbn [append match_offset].
    now rewrite match_here_pattern by assumption. }
  assert (M0 : match_offset (offset_string sign h1 h2 m1 m2)
               = Some (MkGroups (String sign "") (String h1 (String h2 ""))
                                (String m1 (String m2 "")))).
  { unfold offset_string. cbn [match_offset].
    now rewrite match_here_pattern by assumption. }
  rewrite M. rewrite M0 in A. cbv beta iota zeta in A |- *.
  apply (f_equal (fun c => match c with
                           | Return (_, _, dt) => dt
                           | Throw _ => MkDate None
                           end)) in A.
  cbv beta iota in A. rewrite A. reflexivity.
Qed.

(** X7: the pattern of the offset is searched, not matched against the whole
    argument.  A text that holds an offset after characters that are no sign
    and before anything at all (as in GMT+01:00 or UTC-05:00 winter) is
    accepted: the instant is moved by that offset, and from format 4 on the
    whole text, not the offset found in it, ends the result. *)
Theorem X7_offset_is_searched_in_the_text (dateIn : Date)
    (format : option number) (pre post : string)
    (sign h1 h2 m1 m2 : ascii) :
  no_sign pre = true ->
  is_sign sign = true ->
  Num.is_digit h1 = true -> Num.is_digit h2 = true ->
  Num.is_digit m1 = true -> Num.is_digit m2 = true ->
  let text := pre ++ offset_string sign h1 h2 m1 m2 ++ post in
  let date := shift_minutes dateIn (offset_minutes sign h1 h2 m1 m2) in
  exists fields : string,
    dateToISO8601 date format None =
      Return (if Num.gt (precision format) (of_Z 3)
              then fields ++ "Z" else fields)
    /\ dateToISO8601 dateIn format (Some text) =
      Return (if Num.gt (precision format) (of_Z 3)
              then fields ++ text else fields).
Proof.
  intros Hp E0 E1 E2 E4 E5 text date.
  exists (dateToISO8601_fields (precision format) "" date).
  split.
  - rewrite dateToISO8601_default by reflexivity.
    rewrite dateToISO8601_fields_designator.
    destruct (Num.gt (precision format) (of_Z 3));
      now rewrite ?StrFacts.app_empty_r.
  - unfold dateToISO8601. subst text date.
    rewrite dateToISO8601_args_inside by assumption.
    cbn [bind]. rewrite dateToISO8601_fields_designator.
    destruct (Num.gt (precision format) (of_Z 3));
      now rewrite ?StrFacts.app_empty_r.
Qed.

Lemma X7_offset_is_searched_in_the_text_witness :
  exists fields : string,
    dateToISO8601 (MkDate (Some (869080830450 + 60 * 60000)))
                  (Some (of_Z 5)) None
    = Return (fields ++ "Z")
    /\ dateToISO8601 (MkDate (Some 869080830450)) (Some (of_Z 5))
                     (Some "GMT+01:00 (BST)")
       = Return (fields ++ "GMT+01:00 (BST)").
Proof.
  exact (X7_offset_is_searched_in_the_text
           (MkDate (Some 869080830450)) (Some (of_Z 5)) "GMT" " (BST)"
           "+" "0" "1" "0" "0"
           eq_refl eq_refl eq_refl eq_refl eq_refl eq_refl).
Defined.

Example offset_in_text_sample :
  dateToISO8601 (MkDate (Some 869080830450)) (Some (of_Z 5))
                (Some "GMT+01:00 (BST)")
  = Return "1997-07-16T20:20:30GMT+01:00 (BST)".
Proof. vm_compute. reflexivity. Qed.

(** ** The whole document *)

Lemma starts_with_app (p r : string) : Str.starts_with p (p ++ r) = true.
Proof.
  induction p as [|c p IH]; [reflexivity|].
  cbn [append Str.starts_with]. now rewrite Ascii.eqb_refl.
Qed.


Lemma mapM_Forall2 {A B : Type} (f : A -> completion B) (l : list A)
    (bs : list B) :
  mapM f l = Return bs <-> Forall2 (fun a b => f a = Return b) l bs.
Proof.
  split.
  - revert bs. induction l as [|a r IH]; cbn [mapM]; intros bs H.
    + injection H as <-. constructor.
    + destruct (f a) as [b|e] eqn:Ea; [|discriminate H]. cbn [bind] in H.
      destruct (mapM f r) as [bs'|e]; [|discriminate H]. cbn [bind] in H.
      injection H as <-. constructor; [exact Ea | now apply IH].
  - induction 1 as [|a b r bs Hab _ IH]; cbn [mapM]; [reflexivity|].
    now rewrite Hab, IH.
Qed.

(** X8: whenever [xml] returns, the document starts with the XML declaration
    line and the opening tag of its root element, and ends with the closing
    tag of that element with no line end after it; between them is one
    envelope that holds the renderings of the parameters, as many as there
    are parameters and in their order. *)
Theorem X8_document_frame (this : message) (doc : string) :
  xml this = Return doc ->
  Str.starts_with ("<?xml version=" ++ dquote ++ "1.0" ++ dquote ++ "?>" ++ nl
                   ++ (if truthy_method (method this) then "<methodCall>"
                       else "<methodResponse>") ++ nl) doc = true
  /\ exists xs : list string,
       Forall2 (fun v x => getParamXML v = Return x) (params this) xs
       /\ doc = document_open (method this)
                ++ envelope (is_fault this) xs
                ++ (if truthy_method (method this) then "</methodCall>"
                    else "</methodResponse>").
Proof.
  intros H. rewrite xml_shape in H.
  destruct (mapM getParamXML (params this)) as [xs|e] eqn:Em;
    [|discriminate H].
  cbn [bind] in H. injection H as <-. split.
  - unfold document_open.
    destruct (truthy_method (method this));
      rewrite ?StrFacts.app_assoc;
      repeat (rewrite <- StrFacts.app_assoc);
      match goal with
      | |- Str.starts_with ?p ?s = true =>
          let E := fresh in
          assert (E : exists r, s = p ++ r)
            by (eexists; rewrite ?StrFacts.app_assoc; reflexivity);
          destruct E as [r ->]; apply starts_with_app
      end.
  - exists xs. split; [now apply mapM_Forall2 | reflexivity].
Qed.

Lemma X8_document_frame_witness :
  Str.starts_with
    ("<?xml version=" ++ dquote ++ "1.0" ++ dquote ++ "?>" ++ nl
     ++ "<methodCall>" ++ nl)
    ("<?xml version=" ++ dquote ++ "1.0" ++ dquote ++ "?>" ++ nl
     ++ "<methodCall>" ++ nl
     ++ "<methodName>system.listMethods</methodName>" ++ nl
     ++ "<params>" ++ nl ++ "</params>" ++ nl ++ "</methodCall>") = true.
Proof.
  exact (proj1 (X8_document_frame (XMLRPCMessage None None) _ eq_refl)).
Defined.




Example raising_samples :
  map getParamXML
      [VArray [VNumber (of_Z 1); VObject [("a", VNull)]];
       VObject [("k", VArray [VSymbol "s"])];
       VArray [VUndefined]]
  = [Throw (TypeError "Cannot read properties of null");
     Throw (TypeError "Cannot convert a Symbol value to a string");
     Return ("<array><data>" ++ nl
             ++ "<value><undefined>undefined</undefined></value>" ++ nl
             ++ "</data></array>" ++ nl)].
Proof. vm_compute. reflexivity. Qed.

(** X10: a rendering opens with the tag of its classification: the type name
    between angle brackets for the scalar types and for a struct, but
    [<dateTime.iso8601>] for the type name ['date'] and [<array><data>] for
    ['array']. *)
Theorem X10_rendering_opens_with_its_tag (v : value) (type x : string) :
  dataTypeOf v = Return type ->
  getParamXML v = Return x ->
  exists rest : string, x = open_tag type ++ rest.
Proof.
  intros Ht Hx.
  destruct v as [[| |b|n|z|s|d]|d|items|members].
  - injection Ht as <-. injection Hx as <-. eexists; reflexivity.
  - discriminate Ht.
  - injection Ht as <-. injection Hx as <-. eexists; reflexivity.
  - cbn [dataTypeOf typeof] in Ht. cbn [getParamXML dataTypeOf typeof] in Hx.
    destruct (Num.strict_eq (Num.Math_round n) n);
      injection Ht as <-; unfold toValueXML in Hx; cbn [bind ToString] in Hx;
      injection Hx as <-; eexists; reflexivity.
  - injection Ht as <-. injection Hx as <-. eexists; reflexivity.
  - injection Ht as <-. injection Hx as <-. eexists; reflexivity.
  - discriminate Hx.
  - injection Ht as <-. cbn [getParamXML] in Hx. unfold toDateXML in Hx.
    destruct (dateToISO8601 d None None) as [iso|e]; [|discriminate Hx].
    cbn [bind] in Hx. injection Hx as <-.
    exists (iso ++ "</dateTime.iso8601>").
    change (open_tag "date") with "<dateTime.iso8601>".
    rewrite ?StrFacts.app_assoc. reflexivity.
  - injection Ht as <-. rewrite getParamXML_array in Hx.
    destruct (mapM getParamXML items) as [xs|e]; [|discriminate Hx].
    cbn [bind] in Hx. injection Hx as <-.
    change (open_tag "array") with "<array><data>".
    eexists; reflexivity.
  - injection Ht as <-. rewrite getParamXML_object in Hx.
    destruct (mapM (member_of getParamXML) members) as [ms|e];
      [|discriminate Hx].
    cbn [bind] in Hx. injection Hx as <-.
    change (open_tag "struct") with "<struct>".
    eexists; reflexivity.
Qed.

Lemma X10_rendering_opens_with_its_tag_witness :
  exists rest : string,
    "<dateTime.iso8601>1997-07-16T19:20:30.45Z</dateTime.iso8601>"
    = open_tag "date" ++ rest.
Proof.
  exact (X10_rendering_opens_with_its_tag
           (VDate (MkDate (Some 869080830450))) "date"
           "<dateTime.iso8601>1997-07-16T19:20:30.45Z</dateTime.iso8601>"
           eq_refl eq_refl).
Defined.

(** X11: [xml] does not count the values of a fault.  With [is_fault] set,
    every parameter is rendered as a [<value>] directly inside the one
    [<fault>] element, whether there is one, several or none; with no
    parameter the fault is empty.  The constructor itself never sets
    [is_fault]. *)
Theorem X11_fault_takes_any_number_of_values (this : message) :
  is_fault this = true ->
  xml this =
    (let* xs := mapM getParamXML (params this) in
     Return (document_open (method this)
             ++ "<fault>" ++ nl
             ++ Str.cat (map (fun x => "<value>" ++ x ++ "</value>" ++ nl) xs)
             ++ "</fault>" ++ nl
             ++ document_close (method this)))
  /\ (params this = [] ->
      xml this = Return (document_open (method this)
                         ++ "<fault>" ++ nl ++ "</fault>" ++ nl
                         ++ document_close (method this)))
  /\ (forall methodname ps, is_fault (XMLRPCMessage methodname ps) = false).
Proof.
  intros Hf.
  assert (E : xml this =
              (let* xs := mapM getParamXML (params this) in
               Return (document_open (method this)
                       ++ "<fault>" ++ nl
                       ++ Str.cat (map (fun x => "<value>" ++ x
                                                 ++ "</value>" ++ nl) xs)
                       ++ "</fault>" ++ nl
                       ++ document_close (method this)))).
  { rewrite xml_shape, Hf.
    destruct (mapM getParamXML (params this)) as [xs|e]; cbn [bind];
      [|reflexivity].
    unfold envelope, param_entry. f_equal. f_equal.
    now rewrite ?StrFacts.app_assoc. }
  split; [exact E|]. split; [|reflexivity].
  intros Hp. rewrite E, Hp. reflexivity.
Qed.

Lemma X11_fault_takes_any_number_of_values_witness :
  xml (MkMessage None [VNumber (of_Z 4); VString "Too many parameters."] true)
  = Return ("<?xml version=" ++ dquote ++ "1.0" ++ dquote ++ "?>" ++ nl
            ++ "<methodResponse>" ++ nl
            ++ "<fault>" ++ nl
            ++ "<value><i4>4</i4></value>" ++ nl
            ++ "<value><string>Too many parameters.</string></value>" ++ nl
            ++ "</fault>" ++ nl
            ++ "</methodResponse>").
Proof.
  exact (proj1 (X11_fault_takes_any_number_of_values
                  (MkMessage None
                     [VNumber (of_Z 4); VString "Too many parameters."] true)
                  eq_refl)).
Defined.
